(** * The go2 KMS/DRM graphics context driver (gfx/drivers_context/drm_ctx.c)

    A shallow embedding of the driver's entry points.  The driver is a thin
    layer over libgo2, EGL and the frontend: every call into those libraries
    is recorded in a trace, and what such a call answers is taken from a
    [platform], a function of the calls made so far.  The session struct
    behind [void *data] is passed explicitly, [None] standing for NULL; the
    file-scope variable [drm_api] and the EGL version globals live in the
    [world]. *)

From Stdlib Require Import ZArith List Ascii String Bool Lia.
From ExtLib Require Import Structures.Monad.
Import ListNotations.
Import MonadNotation.

Local Open Scope Z_scope.
Local Open Scope monad_scope.

(** ** C data *)

(** A pointer handed out by a library: [None] is NULL, [Some n] the n-th
    object of its kind. *)
Definition go2_display_p := option N.
Definition go2_presenter_p := option N.
Definition go2_context_p := option N.
Definition go2_surface_p := option N.
Definition void_p := option N.

(** [unsigned] and [uint32_t] are 32 bits wide on the target. *)
Definition UINT_MODULUS : Z := 2 ^ 32.
Definition umul (a b : Z) : Z := (a * b) mod UINT_MODULUS.
Definition uadd (a b : Z) : Z := (a + b) mod UINT_MODULUS.

(** [enum gfx_ctx_api].  The driver names four enumerators; the others
    (Direct3D, Vulkan, ...) only ever reach a [default:] label. *)
Inductive gfx_ctx_api : Type :=
| GFX_CTX_NONE
| GFX_CTX_OPENGL_API
| GFX_CTX_OPENGL_ES_API
| GFX_CTX_OPENVG_API
| GFX_CTX_OTHER_API (value : Z).

(** The [EGLenum] values given to [egl_bind_api]. *)
Inductive EGLenum_api : Type :=
| EGL_OPENGL_API
| EGL_OPENGL_ES_API
| EGL_OPENVG_API.

Inductive go2_rotation_t : Type :=
| GO2_ROTATION_DEGREES_0
| GO2_ROTATION_DEGREES_90
| GO2_ROTATION_DEGREES_180
| GO2_ROTATION_DEGREES_270.

Inductive input_driver_t : Type :=
| input_udev
| input_linuxraw.

Record go2_context_attributes_t : Type := mk_attr {
  attr_major : Z;
  attr_minor : Z;
  red_bits : Z;
  green_bits : Z;
  blue_bits : Z;
  alpha_bits : Z;
  depth_bits : Z;
  stencil_bits : Z
}.

Definition DRM_FORMAT_RGB565 : Z := 0x36314752.
Definition GL_COLOR_BUFFER_BIT : Z := 0x4000.

(** [egl_ctx_data_t], the EGL bookkeeping block.  Its layout belongs to the
    EGL helpers; the driver never looks inside, so its contents are one
    number here, 0 for the zeroed block. *)
Definition egl_ctx_data_t : Type := N.

(** A pointer to such a block: [None] is NULL, [Some e] points at a block
    that holds [e]. *)
Definition egl_ctx_data_p := option egl_ctx_data_t.

(** [gfx_ctx_drm_data_t].  The [egl] member is its first one (present with
    HAVE_EGL); the driver hands its address to [egl_bind_hw_render], which
    may write the block. *)
Record gfx_ctx_drm_data_t : Type := mk_drm {
  egl : egl_ctx_data_t;
  display : go2_display_p;
  presenter : go2_presenter_p;
  context : go2_context_p;
  interval : Z;
  fb_width : Z;
  fb_height : Z;
  core_hw_context_enable : bool
}.

(** What [calloc(1, sizeof(gfx_ctx_drm_data_t))] hands back when it succeeds. *)
Definition zeroed_drm : gfx_ctx_drm_data_t :=
  mk_drm 0%N None None None 0 0 0 false.

(** ** Build configuration and header constants *)

(** The preprocessor symbols the file tests. *)
Record build_config : Type := mk_config {
  HAVE_EGL : bool;
  HAVE_OPENGL : bool;
  HAVE_OPENGLES : bool;
  HAVE_VG : bool;
  EGL_KHR_create_context : bool;
  HAVE_SLANG : bool;
  HAVE_SPIRV_CROSS : bool;
  HAVE_X11 : bool;
  HAVE_UDEV : bool;
  linux_not_android : bool
}.

(** The enumerators of [enum display_flags] that the driver uses; their
    values come from a header of the frontend. *)
Record display_flags : Type := mk_flags {
  GFX_CTX_FLAGS_GL_CORE_CONTEXT : Z;
  GFX_CTX_FLAGS_CUSTOMIZABLE_SWAPCHAIN_IMAGES : Z;
  GFX_CTX_FLAGS_SHADERS_GLSL : Z;
  GFX_CTX_FLAGS_SHADERS_SLANG : Z
}.

(** The enumerators are bit positions of one 32-bit word, each its own. *)
Definition display_flags_wf (f : display_flags) : Prop :=
  (0 <= GFX_CTX_FLAGS_GL_CORE_CONTEXT f < 32) /\
  (0 <= GFX_CTX_FLAGS_CUSTOMIZABLE_SWAPCHAIN_IMAGES f < 32) /\
  (0 <= GFX_CTX_FLAGS_SHADERS_GLSL f < 32) /\
  (0 <= GFX_CTX_FLAGS_SHADERS_SLANG f < 32) /\
  GFX_CTX_FLAGS_GL_CORE_CONTEXT f <> GFX_CTX_FLAGS_CUSTOMIZABLE_SWAPCHAIN_IMAGES f /\
  GFX_CTX_FLAGS_GL_CORE_CONTEXT f <> GFX_CTX_FLAGS_SHADERS_GLSL f /\
  GFX_CTX_FLAGS_GL_CORE_CONTEXT f <> GFX_CTX_FLAGS_SHADERS_SLANG f /\
  GFX_CTX_FLAGS_CUSTOMIZABLE_SWAPCHAIN_IMAGES f <> GFX_CTX_FLAGS_SHADERS_GLSL f /\
  GFX_CTX_FLAGS_CUSTOMIZABLE_SWAPCHAIN_IMAGES f <> GFX_CTX_FLAGS_SHADERS_SLANG f /\
  GFX_CTX_FLAGS_SHADERS_GLSL f <> GFX_CTX_FLAGS_SHADERS_SLANG f.

(** Modelled from the spec: the macro BIT32_SET (a header outside this
    file) "sets" one flag of the 32-bit flag set, the bit [bit & 31]. *)
Definition BIT32_SET (a bit : Z) : Z :=
  Z.lor a (Z.shiftl 1 (Z.land bit 31)).

(** Modelled from the spec: the macro BIT32_GET reads that same bit as
    0 or 1. *)
Definition BIT32_GET (a bit : Z) : Z :=
  Z.land (Z.shiftr a (Z.land bit 31)) 1.

(** A C condition [if (x)] on an integer. *)
Definition truthy (x : Z) : bool := negb (x =? 0).

(** Modelled from the spec: [string_is_equal] (a helper outside this file)
    says whether the identifier "equals" the name; a NULL string equals
    nothing. *)
Definition string_is_equal (a b : option string) : bool :=
  match a, b with
  | Some x, Some y => String.eqb x y
  | _, _ => false
  end.

(** ** Calls into the libraries *)

Inductive event : Type :=
| E_calloc (ok : bool)
| E_go2_display_create (ret : go2_display_p)
| E_go2_presenter_create (d : go2_display_p) (format color : Z) (ret : go2_presenter_p)
| E_go2_context_create (d : go2_display_p) (w h : Z)
    (attr : go2_context_attributes_t) (ret : go2_context_p)
| E_go2_context_destroy (c : go2_context_p)
| E_go2_presenter_destroy (p : go2_presenter_p)
| E_go2_display_destroy (d : go2_display_p)
| E_go2_context_make_current (c : go2_context_p)
| E_glClear (mask : Z)
| E_go2_context_swap_buffers (c : go2_context_p)
| E_go2_context_surface_lock (c : go2_context_p) (ret : go2_surface_p)
| E_go2_presenter_post (p : go2_presenter_p) (s : go2_surface_p)
    (srcX srcY srcW srcH dstX dstY dstW dstH : Z) (rotation : go2_rotation_t)
| E_go2_context_surface_unlock (c : go2_context_p) (s : go2_surface_p)
| E_egl_bind_api (api : EGLenum_api) (ret : bool)
| E_egl_get_proc_address (symbol : string) (ret : void_p)
| E_egl_bind_hw_render (egl : egl_ctx_data_p) (enable : bool) (left : egl_ctx_data_t)
| E_frontend_driver_install_signal_handler
| E_frontend_driver_get_signal_handler_state (ret : Z)
| E_video_driver_get_ident (ret : option string)
| E_settings_input_driver (ret : string)
| E_input_init (drv : input_driver_t) (joypad_name : string) (ret : void_p)
| E_RARCH_WARN (msg : string)
| E_printf (msg : string).

(** What the libraries answer, given the calls made so far. *)
Record platform : Type := mk_platform {
  calloc_ok : list event -> bool;
  go2_display_create : list event -> go2_display_p;
  go2_presenter_create : list event -> go2_display_p -> Z -> Z -> go2_presenter_p;
  go2_context_create : list event -> go2_display_p -> Z -> Z ->
                       go2_context_attributes_t -> go2_context_p;
  go2_context_surface_lock : list event -> go2_context_p -> go2_surface_p;
  egl_bind_api : list event -> EGLenum_api -> bool;
  egl_get_proc_address : list event -> string -> void_p;
  frontend_driver_get_signal_handler_state : list event -> Z;
  video_driver_get_ident : list event -> option string;
  settings_input_driver : list event -> string;
  input_init : list event -> input_driver_t -> string -> void_p;
  egl_bind_hw_render : list event -> egl_ctx_data_p -> bool -> egl_ctx_data_t
}.

(** ** Process state and the driver monad *)

Record world : Type := mk_world {
  drm_api : gfx_ctx_api;
  g_egl_major : Z;
  g_egl_minor : Z;
  trace : list event
}.

(** The state of a fresh process: [drm_api] is initialised to GFX_CTX_NONE. *)
Definition initial_world : world := mk_world GFX_CTX_NONE 0 0 [].

(** An entry point either returns in a new world or dereferences NULL. *)
Inductive result (A : Type) : Type :=
| Ok (a : A) (w : world)
| Segv.
Arguments Ok {A} a w.
Arguments Segv {A}.

Definition M (A : Type) : Type := world -> result A.

#[global] Instance Monad_M : Monad M := {|
  ret := fun _ a w => Ok a w;
  bind := fun _ _ m k w =>
    match m w with
    | Ok a w' => k a w'
    | Segv => Segv
    end
|}.

(** A library call whose answer [resp] depends on the history, logged as
    [ev answer]. *)
Definition call {A : Type} (resp : list event -> A) (ev : A -> event) : M A :=
  fun w =>
    let r := resp (trace w) in
    Ok r (mk_world (drm_api w) (g_egl_major w) (g_egl_minor w) (trace w ++ [ev r])).

(** A library call that answers nothing. *)
Definition emit (e : event) : M unit :=
  fun w => Ok tt (mk_world (drm_api w) (g_egl_major w) (g_egl_minor w) (trace w ++ [e])).

Definition get_drm_api : M gfx_ctx_api := fun w => Ok (drm_api w) w.

Definition set_drm_api (api : gfx_ctx_api) : M unit :=
  fun w => Ok tt (mk_world api (g_egl_major w) (g_egl_minor w) (trace w)).

Definition set_egl_version (major minor : Z) : M unit :=
  fun w => Ok tt (mk_world (drm_api w) major minor (trace w)).

(** [drm->...] on the pointer [data]. *)
Definition deref (data : option gfx_ctx_drm_data_t) : M gfx_ctx_drm_data_t :=
  fun w =>
    match data with
    | Some drm => Ok drm w
    | None => Segv
    end.

(** Field updates of the session struct. *)
Definition set_egl (v : egl_ctx_data_t) (d : gfx_ctx_drm_data_t) :=
  mk_drm v (display d) (presenter d) (context d) (interval d) (fb_width d) (fb_height d)
    (core_hw_context_enable d).
Definition set_display (v : go2_display_p) (d : gfx_ctx_drm_data_t) :=
  mk_drm (egl d) v (presenter d) (context d) (interval d) (fb_width d) (fb_height d)
    (core_hw_context_enable d).
Definition set_presenter (v : go2_presenter_p) (d : gfx_ctx_drm_data_t) :=
  mk_drm (egl d) (display d) v (context d) (interval d) (fb_width d) (fb_height d)
    (core_hw_context_enable d).
Definition set_context (v : go2_context_p) (d : gfx_ctx_drm_data_t) :=
  mk_drm (egl d) (display d) (presenter d) v (interval d) (fb_width d) (fb_height d)
    (core_hw_context_enable d).
Definition set_interval (v : Z) (d : gfx_ctx_drm_data_t) :=
  mk_drm (egl d) (display d) (presenter d) (context d) v (fb_width d) (fb_height d)
    (core_hw_context_enable d).
Definition set_fb_width (v : Z) (d : gfx_ctx_drm_data_t) :=
  mk_drm (egl d) (display d) (presenter d) (context d) (interval d) v (fb_height d)
    (core_hw_context_enable d).
Definition set_fb_height (v : Z) (d : gfx_ctx_drm_data_t) :=
  mk_drm (egl d) (display d) (presenter d) (context d) (interval d) (fb_width d) v
    (core_hw_context_enable d).
Definition set_core_hw_context_enable (v : bool) (d : gfx_ctx_drm_data_t) :=
  mk_drm (egl d) (display d) (presenter d) (context d) (interval d) (fb_width d)
    (fb_height d) v.

(** ** The driver *)

(** The end-of-line character that closes both messages. *)
Definition LF : string := String "010"%char EmptyString.

Definition swap_interval_warning : string :=
  ("[KMS]: Swap intervals > 1 currently not supported. Will use swap interval of 1."
   ++ LF)%string.

Definition unhandled_swap_buffers : string :=
  ("unhandled gfx_ctx_drm_swap_buffers" ++ LF)%string.

Section Driver.

Variable cfg : build_config.
Variable fl : display_flags.
Variable P : platform.

(** [gfx_ctx_drm_input_driver]: returns what it leaves in [*input] and
    [*input_data]. *)
Definition gfx_ctx_drm_input_driver (data : option gfx_ctx_drm_data_t)
    (joypad_name : string) : M (option input_driver_t * void_p) :=
  if HAVE_X11 cfg then
    name <- call (settings_input_driver P) E_settings_input_driver ;;
    if string_is_equal (Some name) (Some "x"%string) then
      let try_linuxraw : M (option input_driver_t * void_p) :=
        if linux_not_android cfg then
          linuxraw <- call (fun h => input_init P h input_linuxraw joypad_name)
                           (E_input_init input_linuxraw joypad_name) ;;
          match linuxraw with
          | Some _ => ret (Some input_linuxraw, linuxraw)
          | None => ret (None, None)
          end
        else ret (None, None) in
      if HAVE_UDEV cfg then
        udev <- call (fun h => input_init P h input_udev joypad_name)
                     (E_input_init input_udev joypad_name) ;;
        match udev with
        | Some _ => ret (Some input_udev, udev)
        | None => try_linuxraw
        end
      else try_linuxraw
    else ret (None, None)
  else ret (None, None).

Definition gfx_ctx_drm_get_proc_address (symbol : string) : M void_p :=
  api <- get_drm_api ;;
  match api with
  | GFX_CTX_OPENGL_API | GFX_CTX_OPENGL_ES_API | GFX_CTX_OPENVG_API =>
      if HAVE_EGL cfg then
        call (fun h => egl_get_proc_address P h symbol) (E_egl_get_proc_address symbol)
      else ret None
  | _ => ret None
  end.

Definition gfx_ctx_drm_init : M (option gfx_ctx_drm_data_t) :=
  ok <- call (calloc_ok P) E_calloc ;;
  if negb ok then ret None
  else
    d <- call (go2_display_create P) E_go2_display_create ;;
    p <- call (fun h => go2_presenter_create P h d DRM_FORMAT_RGB565 0xff080808)
              (E_go2_presenter_create d DRM_FORMAT_RGB565 0xff080808) ;;
    ret (Some (set_presenter p (set_display d zeroed_drm))).

(** [gfx_ctx_drm_destroy]: returns the contents of [*data] afterwards (the
    struct itself is not freed). *)
Definition gfx_ctx_drm_destroy (data : option gfx_ctx_drm_data_t)
    : M (option gfx_ctx_drm_data_t) :=
  match data with
  | None => ret None
  | Some drm =>
      drm <- match context drm with
             | Some _ =>
                 emit (E_go2_context_destroy (context drm)) ;;
                 ret (set_context None drm)
             | None => ret drm
             end ;;
      emit (E_go2_presenter_destroy (presenter drm)) ;;
      let drm := set_presenter None drm in
      emit (E_go2_display_destroy (display drm)) ;;
      let drm := set_display None drm in
      ret (Some drm)
  end.

Definition gfx_ctx_drm_get_api (data : option gfx_ctx_drm_data_t) : M gfx_ctx_api :=
  get_drm_api.

Definition gfx_ctx_drm_bind_api (api : gfx_ctx_api) (major minor : Z) : M bool :=
  set_drm_api api ;;
  (if HAVE_EGL cfg then set_egl_version major minor else ret tt) ;;
  let bind_vg : M bool :=
    if HAVE_EGL cfg && HAVE_VG cfg
    then call (fun h => egl_bind_api P h EGL_OPENVG_API) (E_egl_bind_api EGL_OPENVG_API)
    else ret false in
  match api with
  | GFX_CTX_OPENGL_API =>
      if HAVE_EGL cfg && HAVE_OPENGL cfg then
        if negb (EGL_KHR_create_context cfg) && (3001 <=? uadd (umul major 1000) minor)
        then ret false
        else call (fun h => egl_bind_api P h EGL_OPENGL_API) (E_egl_bind_api EGL_OPENGL_API)
      else ret false
  | GFX_CTX_OPENGL_ES_API =>
      if HAVE_EGL cfg && HAVE_OPENGLES cfg then
        if negb (EGL_KHR_create_context cfg) && (3 <=? major)
        then ret false
        else call (fun h => egl_bind_api P h EGL_OPENGL_ES_API)
                  (E_egl_bind_api EGL_OPENGL_ES_API)
      else ret false
  | GFX_CTX_OPENVG_API => bind_vg
  | GFX_CTX_NONE => ret false
  | GFX_CTX_OTHER_API _ => ret false
  end.

Definition gfx_ctx_drm_swap_interval (data : option gfx_ctx_drm_data_t) (n : Z)
    : M (option gfx_ctx_drm_data_t) :=
  drm <- deref data ;;
  let drm := set_interval n drm in
  (if 1 <? n
   then emit (E_RARCH_WARN swap_interval_warning)
   else ret tt) ;;
  ret (Some drm).

(** [gfx_ctx_drm_set_video_mode]: the returned flag, and [*data] afterwards. *)
Definition gfx_ctx_drm_set_video_mode (data : option gfx_ctx_drm_data_t)
    (width height : Z) (fullscreen : bool)
    : M (bool * option gfx_ctx_drm_data_t) :=
  match data with
  | None => ret (false, None)
  | Some drm =>
      emit E_frontend_driver_install_signal_handler ;;
      let drm := set_fb_width 480 drm in
      let drm := set_fb_height 320 drm in
      drm <- match context drm with
             | None =>
                 let attr := mk_attr 3 2 8 8 8 8 0 0 in
                 c <- call (fun h => go2_context_create P h (display drm) 480 320 attr)
                           (E_go2_context_create (display drm) 480 320 attr) ;;
                 ret (set_context c drm)
             | Some _ => ret drm
             end ;;
      emit (E_go2_context_make_current (context drm)) ;;
      emit (E_glClear GL_COLOR_BUFFER_BIT) ;;
      ret (true, Some drm)
  end.

(** [gfx_ctx_drm_get_video_size]: [width] and [height] are what the two
    out-parameters hold before the call, the result what they hold after. *)
Definition gfx_ctx_drm_get_video_size (data : option gfx_ctx_drm_data_t)
    (width height : Z) : Z * Z :=
  match data with
  | None => (width, height)
  | Some drm => (fb_width drm, fb_height drm)
  end.

(** [gfx_ctx_drm_check_window]: returns [*quit] and [*resize]. *)
Definition gfx_ctx_drm_check_window (data : option gfx_ctx_drm_data_t)
    (is_shutdown : bool) : M (bool * bool) :=
  let resize := false in
  s <- call (frontend_driver_get_signal_handler_state P)
            E_frontend_driver_get_signal_handler_state ;;
  ret (truthy s, resize).

Definition gfx_ctx_drm_has_focus (data : option gfx_ctx_drm_data_t) : bool := true.

Definition gfx_ctx_drm_suppress_screensaver (data : option gfx_ctx_drm_data_t)
    (enable : bool) : bool := false.

Definition gfx_ctx_drm_swap_buffers (data : option gfx_ctx_drm_data_t) : M unit :=
  api <- get_drm_api ;;
  match api with
  | GFX_CTX_OPENGL_API | GFX_CTX_OPENGL_ES_API | GFX_CTX_OPENVG_API =>
      if HAVE_EGL cfg then
        drm <- deref data ;;
        emit (E_go2_context_swap_buffers (context drm)) ;;
        surface <- call (fun h => go2_context_surface_lock P h (context drm))
                        (E_go2_context_surface_lock (context drm)) ;;
        emit (E_go2_presenter_post (presenter drm) surface
                0 0 480 320
                0 0 320 480
                GO2_ROTATION_DEGREES_270) ;;
        emit (E_go2_context_surface_unlock (context drm) surface)
      else ret tt
  | _ => emit (E_printf unhandled_swap_buffers)
  end.

Definition gfx_ctx_drm_get_flags (data : option gfx_ctx_drm_data_t) : M Z :=
  let flags := 0 in
  let flags := BIT32_SET flags (GFX_CTX_FLAGS_CUSTOMIZABLE_SWAPCHAIN_IMAGES fl) in
  drm <- deref data ;;
  let flags :=
    if core_hw_context_enable drm
    then BIT32_SET flags (GFX_CTX_FLAGS_GL_CORE_CONTEXT fl)
    else flags in
  ident <- call (video_driver_get_ident P) E_video_driver_get_ident ;;
  let flags :=
    if string_is_equal ident (Some "glcore"%string) then
      if HAVE_SLANG cfg && HAVE_SPIRV_CROSS cfg
      then BIT32_SET flags (GFX_CTX_FLAGS_SHADERS_SLANG fl)
      else flags
    else BIT32_SET flags (GFX_CTX_FLAGS_SHADERS_GLSL fl) in
  ret flags.

Definition gfx_ctx_drm_set_flags (data : option gfx_ctx_drm_data_t) (flags : Z)
    : M (option gfx_ctx_drm_data_t) :=
  if truthy (BIT32_GET flags (GFX_CTX_FLAGS_GL_CORE_CONTEXT fl)) then
    drm <- deref data ;;
    ret (Some (set_core_hw_context_enable true drm))
  else ret data.

(** [gfx_ctx_drm_bind_hw_render]: what [*data] holds afterwards.  The
    library gets [&drm->egl], the address of the first member and so NULL on
    a NULL handle, which the driver forms without reading the struct; what
    the library leaves in the block is its answer. *)
Definition gfx_ctx_drm_bind_hw_render (data : option gfx_ctx_drm_data_t)
    (enable : bool) : M (option gfx_ctx_drm_data_t) :=
  api <- get_drm_api ;;
  match api with
  | GFX_CTX_OPENGL_API | GFX_CTX_OPENGL_ES_API | GFX_CTX_OPENVG_API =>
      if HAVE_EGL cfg then
        let egl_p : egl_ctx_data_p :=
          match data with
          | Some drm => Some (egl drm)
          | None => None
          end in
        left <- call (fun h => egl_bind_hw_render P h egl_p enable)
                     (E_egl_bind_hw_render egl_p enable) ;;
        ret (match data with
             | Some drm => Some (set_egl left drm)
             | None => None
             end)
      else ret data
  | _ => ret data
  end.

End Driver.

(** ** The host's view *)

(** The entry points of the [gfx_ctx_drm] table, as the host calls them on
    its session handle. *)
Inductive driver_call : Type :=
| Call_destroy
| Call_get_api
| Call_bind_api (api : gfx_ctx_api) (major minor : Z)
| Call_swap_interval (n : Z)
| Call_set_video_mode (width height : Z) (fullscreen : bool)
| Call_get_video_size (width height : Z)
| Call_check_window (is_shutdown : bool)
| Call_has_focus
| Call_suppress_screensaver (enable : bool)
| Call_swap_buffers
| Call_input_driver (joypad_name : string)
| Call_get_proc_address (symbol : string)
| Call_get_flags
| Call_set_flags (flags : Z)
| Call_bind_hw_render (enable : bool).

Definition is_set_video_mode (c : driver_call) : bool :=
  match c with
  | Call_set_video_mode _ _ _ => true
  | _ => false
  end.

Definition is_destroy (c : driver_call) : bool :=
  match c with
  | Call_destroy => true
  | _ => false
  end.

Section Host.

Variable cfg : build_config.
Variable fl : display_flags.
Variable P : platform.

(** One call on the session: what [*data] holds afterwards. *)
Definition do_call (data : option gfx_ctx_drm_data_t) (c : driver_call)
    : M (option gfx_ctx_drm_data_t) :=
  match c with
  | Call_destroy => gfx_ctx_drm_destroy data
  | Call_get_api => gfx_ctx_drm_get_api data ;; ret data
  | Call_bind_api api major minor => gfx_ctx_drm_bind_api cfg P api major minor ;; ret data
  | Call_swap_interval n => gfx_ctx_drm_swap_interval data n
  | Call_set_video_mode width height fullscreen =>
      r <- gfx_ctx_drm_set_video_mode P data width height fullscreen ;;
      ret (snd r)
  | Call_get_video_size width height =>
      let _ := gfx_ctx_drm_get_video_size data width height in ret data
  | Call_check_window is_shutdown => gfx_ctx_drm_check_window P data is_shutdown ;; ret data
  | Call_has_focus => let _ := gfx_ctx_drm_has_focus data in ret data
  | Call_suppress_screensaver enable =>
      let _ := gfx_ctx_drm_suppress_screensaver data enable in ret data
  | Call_swap_buffers => gfx_ctx_drm_swap_buffers cfg P data ;; ret data
  | Call_input_driver joypad_name =>
      gfx_ctx_drm_input_driver cfg P data joypad_name ;; ret data
  | Call_get_proc_address symbol => gfx_ctx_drm_get_proc_address cfg P symbol ;; ret data
  | Call_get_flags => gfx_ctx_drm_get_flags cfg fl P data ;; ret data
  | Call_set_flags flags => gfx_ctx_drm_set_flags fl data flags
  | Call_bind_hw_render enable => gfx_ctx_drm_bind_hw_render cfg P data enable
  end.

Fixpoint run_calls (cs : list driver_call) (data : option gfx_ctx_drm_data_t)
    : M (option gfx_ctx_drm_data_t) :=
  match cs with
  | [] => ret data
  | c :: cs' => data' <- do_call data c ;; run_calls cs' data'
  end.

End Host.

(** ** Vocabulary of the statements *)

Definition is_gpu_api (api : gfx_ctx_api) : bool :=
  match api with
  | GFX_CTX_OPENGL_API | GFX_CTX_OPENGL_ES_API | GFX_CTX_OPENVG_API => true
  | _ => false
  end.

(** The world [w] after the library calls [evs]. *)
Definition after (w : world) (evs : list event) : world :=
  mk_world (drm_api w) (g_egl_major w) (g_egl_minor w) (trace w ++ evs).

(** The value an entry point returns, if it returns. *)
Definition returned {A : Type} (r : result A) : option A :=
  match r with
  | Ok a _ => Some a
  | Segv => None
  end.

(** The world an entry point leaves, if it returns. *)
Definition world_of {A : Type} (r : result A) : option world :=
  match r with
  | Ok _ w => Some w
  | Segv => None
  end.

(** Presenting the locked surface [s] of the session [drm]. *)
Definition present_sequence (drm : gfx_ctx_drm_data_t) (s : go2_surface_p) : list event :=
  [ E_go2_context_swap_buffers (context drm);
    E_go2_context_surface_lock (context drm) s;
    E_go2_presenter_post (presenter drm) s 0 0 480 320 0 0 320 480 GO2_ROTATION_DEGREES_270;
    E_go2_context_surface_unlock (context drm) s ].

Definition is_lock (e : event) : bool :=
  match e with
  | E_go2_context_surface_lock _ _ => true
  | _ => false
  end.

Definition is_unlock (e : event) : bool :=
  match e with
  | E_go2_context_surface_unlock _ _ => true
  | _ => false
  end.

Definition is_context_create (e : event) : bool :=
  match e with
  | E_go2_context_create _ _ _ _ _ => true
  | _ => false
  end.

(** A flag set contains the flag numbered [bit]. *)
Definition has_flag (flags bit : Z) : bool := truthy (BIT32_GET flags bit).

(** The platform never fails to create a rendering context. *)
Definition context_creation_succeeds (P : platform) : Prop :=
  forall h d w ht attr, go2_context_create P h d w ht attr <> None.

(** ** Sample builds and platforms *)

(** A build with EGL and OpenGL-ES but without the explicit-version
    extension and without the slang shader compiler. *)
Definition cfg_gles : build_config :=
  mk_config true false true false false false false false false true.

(** The same with desktop OpenGL. *)
Definition cfg_gl : build_config :=
  mk_config true true true false false false false false false true.

(** A build without EGL. *)
Definition cfg_no_egl : build_config :=
  mk_config false true true false false false false false false true.

(** The numbering of the frontend's header. *)
Definition frontend_flags : display_flags := mk_flags 1 3 8 11.

(** A platform on which everything succeeds: each object is numbered by the
    length of the history at its creation. *)
Definition fresh (h : list event) : option N := Some (N.of_nat (S (List.length h))).

Definition good_platform : platform :=
  mk_platform
    (fun _ => true)
    fresh
    (fun h _ _ _ => fresh h)
    (fun h _ _ _ _ => fresh h)
    (fun h _ => fresh h)
    (fun _ _ => true)
    (fun h _ => fresh h)
    (fun _ => 0)
    (fun _ => Some "gl"%string)
    (fun _ => "udev"%string)
    (fun h _ _ => fresh h)
    (fun _ _ enable => if enable then 1%N else 0%N).

(** A session as [gfx_ctx_drm_init] and one mode-set leave it there. *)
Definition sample_drm : gfx_ctx_drm_data_t :=
  mk_drm 0%N (Some 2%N) (Some 3%N) (Some 5%N) 0 480 320 false.

(** The library calls by which [gfx_ctx_drm_destroy] releases [drm]. *)
Definition release_sequence (drm : gfx_ctx_drm_data_t) : list event :=
  match context drm with
  | Some _ => [E_go2_context_destroy (context drm)]
  | None => []
  end ++
  [E_go2_presenter_destroy (presenter drm); E_go2_display_destroy (display drm)].

(** The process after a bind of OpenGL-ES 2.0, before any library call. *)
Definition gles_world : world := mk_world GFX_CTX_OPENGL_ES_API 2 0 [].

(** None of the library calls [evs] creates a rendering context. *)
Definition no_context_create (evs : list event) : bool :=
  forallb (fun e => negb (is_context_create e)) evs.

(** The attributes [gfx_ctx_drm_set_video_mode] asks a context for. *)
Definition mode_attr : go2_context_attributes_t := mk_attr 3 2 8 8 8 8 0 0.

(** The sample platform, except that go2_context_create always fails. *)
Definition no_context_platform : platform :=
  mk_platform
    (calloc_ok good_platform)
    (go2_display_create good_platform)
    (go2_presenter_create good_platform)
    (fun _ _ _ _ _ => None)
    (go2_context_surface_lock good_platform)
    (egl_bind_api good_platform)
    (egl_get_proc_address good_platform)
    (frontend_driver_get_signal_handler_state good_platform)
    (video_driver_get_ident good_platform)
    (settings_input_driver good_platform)
    (input_init good_platform)
    (egl_bind_hw_render good_platform).

(** ** Vocabulary of the session-level statements *)

Definition is_bind_hw_render (c : driver_call) : bool :=
  match c with
  | Call_bind_hw_render _ => true
  | _ => false
  end.

(** What a call leaves in [interval], given what was there. *)
Definition interval_after (c : driver_call) (i : Z) : Z :=
  match c with
  | Call_swap_interval n => n
  | _ => i
  end.

(** The interval asked for by the last swap-interval call of [cs], or [i]
    when there is none. *)
Definition last_interval (cs : list driver_call) (i : Z) : Z :=
  fold_left (fun i c => interval_after c i) cs i.

(** What a call leaves in [drm_api]. *)
Definition api_after (c : driver_call) (a : gfx_ctx_api) : gfx_ctx_api :=
  match c with
  | Call_bind_api api _ _ => api
  | _ => a
  end.

Definition last_api (cs : list driver_call) (a : gfx_ctx_api) : gfx_ctx_api :=
  fold_left (fun a c => api_after c a) cs a.

(** What a call leaves in the EGL version globals. *)
Definition version_after (cfg : build_config) (c : driver_call) (v : Z * Z) : Z * Z :=
  match c with
  | Call_bind_api _ major minor => if HAVE_EGL cfg then (major, minor) else v
  | _ => v
  end.

Definition last_version (cfg : build_config) (cs : list driver_call) (v : Z * Z) : Z * Z :=
  fold_left (fun v c => version_after cfg c v) cs v.

(** The call is a set-flags whose flag set holds GL_CORE_CONTEXT. *)
Definition requests_core (fl : display_flags) (c : driver_call) : bool :=
  match c with
  | Call_set_flags flags => has_flag flags (GFX_CTX_FLAGS_GL_CORE_CONTEXT fl)
  | _ => false
  end.

(** Library calls that give a resource back. *)
Definition is_release (e : event) : bool :=
  match e with
  | E_go2_context_destroy _ | E_go2_presenter_destroy _ | E_go2_display_destroy _ => true
  | _ => false
  end.

(** Library calls that create a display or a presenter. *)
Definition is_display_create (e : event) : bool :=
  match e with
  | E_go2_display_create _ | E_go2_presenter_create _ _ _ _ => true
  | _ => false
  end.

Definition surface_eqb (a b : go2_surface_p) : bool :=
  match a, b with
  | Some x, Some y => N.eqb x y
  | None, None => true
  | _, _ => false
  end.

(** The surface protocol of libgo2 as an automaton over the trace: a surface
    is locked only when none is held, posted and unlocked only while it is
    the one held. *)
Inductive lock_state : Type :=
| Unlocked
| Locked (s : go2_surface_p)
| Broken.

Definition lock_step (st : lock_state) (e : event) : lock_state :=
  match st, e with
  | Broken, _ => Broken
  | Unlocked, E_go2_context_surface_lock _ s => Locked s
  | Locked _, E_go2_context_surface_lock _ _ => Broken
  | Locked s, E_go2_presenter_post _ s' _ _ _ _ _ _ _ _ _ =>
      if surface_eqb s s' then Locked s else Broken
  | Unlocked, E_go2_presenter_post _ _ _ _ _ _ _ _ _ _ _ => Broken
  | Locked s, E_go2_context_surface_unlock _ s' =>
      if surface_eqb s s' then Unlocked else Broken
  | Unlocked, E_go2_context_surface_unlock _ _ => Broken
  | st, _ => st
  end.

Definition lock_protocol (st : lock_state) (evs : list event) : lock_state :=
  fold_left lock_step evs st.

Definition is_bind_api (c : driver_call) : bool :=
  match c with
  | Call_bind_api _ _ _ => true
  | _ => false
  end.

(** The entry points that read or write through a NULL handle, with [api]
    selected.  (bind_hw_render only takes the address of a member.) *)
Definition writes_through_null (cfg : build_config) (fl : display_flags)
    (api : gfx_ctx_api) (c : driver_call) : bool :=
  match c with
  | Call_swap_interval _ => true
  | Call_get_flags => true
  | Call_set_flags flags => has_flag flags (GFX_CTX_FLAGS_GL_CORE_CONTEXT fl)
  | Call_swap_buffers => is_gpu_api api && HAVE_EGL cfg
  | _ => false
  end.

(** The [EGLenum] that stands for an API of the driver, if any. *)
Definition egl_api_of (api : gfx_ctx_api) : option EGLenum_api :=
  match api with
  | GFX_CTX_OPENGL_API => Some EGL_OPENGL_API
  | GFX_CTX_OPENGL_ES_API => Some EGL_OPENGL_ES_API
  | GFX_CTX_OPENVG_API => Some EGL_OPENVG_API
  | _ => None
  end.

Definition is_input_init (e : event) : bool :=
  match e with
  | E_input_init _ _ _ => true
  | _ => false
  end.

(** A build with X11, udev and the Linux raw console next to EGL. *)
Definition cfg_x11 : build_config :=
  mk_config true true true false true true true true true true.

(** The sample platform with the X11 input driver configured and no udev
    device to open. *)
Definition x_input_platform : platform :=
  mk_platform
    (calloc_ok good_platform)
    (go2_display_create good_platform)
    (go2_presenter_create good_platform)
    (go2_context_create good_platform)
    (go2_context_surface_lock good_platform)
    (egl_bind_api good_platform)
    (egl_get_proc_address good_platform)
    (frontend_driver_get_signal_handler_state good_platform)
    (video_driver_get_ident good_platform)
    (fun _ => "x"%string)
    (fun h drv _ => match drv with input_udev => None | input_linuxraw => fresh h end)
    (egl_bind_hw_render good_platform).

Definition is_swap_interval (c : driver_call) : bool :=
  match c with
  | Call_swap_interval _ => true
  | _ => false
  end.



(** * Properties *)

(** ** Helper lemmas *)

Lemma after_nil (w : world) : after w [] = w.
Proof. destruct w; unfold after; cbn. now rewrite app_nil_r. Qed.

Lemma after_after (w : world) (e1 e2 : list event) :
  after (after w e1) e2 = after w (e1 ++ e2).
Proof. unfold after; cbn. now rewrite app_assoc. Qed.

Lemma emit_after (e : event) (w : world) : emit e w = Ok tt (after w [e]).
Proof. reflexivity. Qed.

Lemma call_after {A : Type} (resp : list event -> A) (ev : A -> event) (w : world) :
  call resp ev w = Ok (resp (trace w)) (after w [ev (resp (trace w))]).
Proof. reflexivity. Qed.

(** Brings a trace built call by call into the shape [trace w ++ evs]. *)
Ltac norm_trace := repeat rewrite <- app_assoc; cbn [app].

(** ** Teardown *)

(** C3: [gfx_ctx_drm_destroy] on NULL does nothing; on a session it calls
    go2_context_destroy (only when a context is present), then
    go2_presenter_destroy, then go2_display_destroy, and nothing else, and
    leaves the three handles NULL and the other fields as they were. *)
Theorem C3_destroy_releases_in_order (w : world) :
  gfx_ctx_drm_destroy None w = Ok None w /\
  forall drm : gfx_ctx_drm_data_t,
  exists drm' : gfx_ctx_drm_data_t,
    gfx_ctx_drm_destroy (Some drm) w = Ok (Some drm') (after w (release_sequence drm)) /\
    context drm' = None /\ presenter drm' = None /\ display drm' = None /\
    interval drm' = interval drm /\ fb_width drm' = fb_width drm /\
    fb_height drm' = fb_height drm /\
    core_hw_context_enable drm' = core_hw_context_enable drm /\
    egl drm' = egl drm.
Proof.
  split; [reflexivity|].
  intros [eg d p c i fw fh core]. unfold release_sequence. cbn.
  destruct c as [c|]; cbn; unfold after; cbn;
    (eexists; split; [norm_trace; reflexivity | cbn; repeat split]).
Qed.

(** ** Video mode and size *)

(** C9: [gfx_ctx_drm_get_video_size] on NULL leaves [*width] and [*height]
    as they were; on a session it stores [fb_width] and [fb_height] there. *)
Theorem C9_get_video_size_outputs (width height : Z) :
  gfx_ctx_drm_get_video_size None width height = (width, height) /\
  forall drm : gfx_ctx_drm_data_t,
    gfx_ctx_drm_get_video_size (Some drm) width height = (fb_width drm, fb_height drm).
Proof. split; [reflexivity | intros drm; reflexivity]. Qed.

(** C5: [gfx_ctx_drm_set_video_mode] returns false exactly on NULL, where it
    does nothing; on a session it returns true whatever size and fullscreen
    flag were asked for, stores 480 and 320 in [fb_width] and [fb_height],
    and [gfx_ctx_drm_get_video_size] then reports 480x320. *)
Theorem C5_set_video_mode_fixed_size (P : platform) (w : world)
    (width height : Z) (fullscreen : bool) :
  (forall data : option gfx_ctx_drm_data_t,
     exists (b : bool) (data' : option gfx_ctx_drm_data_t) (w' : world),
       gfx_ctx_drm_set_video_mode P data width height fullscreen w = Ok (b, data') w' /\
       (b = false <-> data = None)) /\
  gfx_ctx_drm_set_video_mode P None width height fullscreen w = Ok (false, None) w /\
  (forall drm : gfx_ctx_drm_data_t,
     exists (drm' : gfx_ctx_drm_data_t) (w' : world),
       gfx_ctx_drm_set_video_mode P (Some drm) width height fullscreen w
         = Ok (true, Some drm') w' /\
       fb_width drm' = 480 /\ fb_height drm' = 320 /\
       forall out_w out_h : Z,
         gfx_ctx_drm_get_video_size (Some drm') out_w out_h = (480, 320)).
Proof.
  assert (Hsome : forall drm : gfx_ctx_drm_data_t,
     exists (drm' : gfx_ctx_drm_data_t) (w' : world),
       gfx_ctx_drm_set_video_mode P (Some drm) width height fullscreen w
         = Ok (true, Some drm') w' /\
       fb_width drm' = 480 /\ fb_height drm' = 320).
  { intros [eg d p c i fw fh core]. cbn.
    destruct c as [c|]; cbn; do 2 eexists; (split; [reflexivity | split; reflexivity]). }
  split; [|split].
  - intros [drm|].
    + destruct (Hsome drm) as (drm' & w' & E & _).
      exists true, (Some drm'), w'. split; [exact E|]. split; discriminate.
    + exists false, None, w. split; [reflexivity|]. split; reflexivity.
  - reflexivity.
  - intros drm. destruct (Hsome drm) as (drm' & w' & E & Hw & Hh).
    exists drm', w'. repeat split; try assumption.
    intros out_w out_h. cbn. now rewrite Hw, Hh.
Qed.

(** ** Swap interval *)

(** C6: on a session, [gfx_ctx_drm_swap_interval] stores the requested [n]
    itself in [interval], also when [n > 1], and leaves every other field
    and the process-wide variables alone; its only other effect is the
    warning, logged exactly when [n > 1]. *)
Theorem C6_swap_interval_stores_request (drm : gfx_ctx_drm_data_t) (n : Z) (w : world) :
  exists drm' : gfx_ctx_drm_data_t,
    gfx_ctx_drm_swap_interval (Some drm) n w
      = Ok (Some drm')
           (after w (if 1 <? n then [E_RARCH_WARN swap_interval_warning] else [])) /\
    interval drm' = n /\
    display drm' = display drm /\ presenter drm' = presenter drm /\
    context drm' = context drm /\
    fb_width drm' = fb_width drm /\ fb_height drm' = fb_height drm /\
    core_hw_context_enable drm' = core_hw_context_enable drm /\
    egl drm' = egl drm.
Proof.
  exists (set_interval n drm). split; [|cbn; repeat split].
  unfold gfx_ctx_drm_swap_interval. cbn.
  destruct (1 <? n); cbn.
  - reflexivity.
  - now rewrite after_nil.
Qed.

(** ** Presenting a frame *)

(** C1, as the code has it: in a build with EGL (HAVE_EGL) and with one of
    OpenGL, OpenGL-ES and OpenVG selected, [gfx_ctx_drm_swap_buffers] makes
    exactly four library calls: swap the context's buffers, lock its
    surface, post that surface with source (0,0,480,320), destination
    (0,0,320,480) and a rotation of 270 degrees, unlock that same surface;
    so the calls it adds hold as many locks as unlocks.  In a build without
    EGL the three APIs make it return without any call.  With any other API
    selected it only prints its message, whatever the handle. *)
Theorem C1_swap_buffers_sequence (cfg : build_config) (P : platform) (w : world) :
  (is_gpu_api (drm_api w) = true -> HAVE_EGL cfg = true ->
   forall drm : gfx_ctx_drm_data_t,
   exists (s : go2_surface_p) (evs : list event),
     gfx_ctx_drm_swap_buffers cfg P (Some drm) w = Ok tt (after w evs) /\
     evs = present_sequence drm s /\
     s = go2_context_surface_lock P
           (trace w ++ [E_go2_context_swap_buffers (context drm)]) (context drm) /\
     List.length (filter is_lock evs) = List.length (filter is_unlock evs)) /\
  (is_gpu_api (drm_api w) = true -> HAVE_EGL cfg = false ->
   forall data : option gfx_ctx_drm_data_t,
     gfx_ctx_drm_swap_buffers cfg P data w = Ok tt w) /\
  (is_gpu_api (drm_api w) = false ->
   forall data : option gfx_ctx_drm_data_t,
     gfx_ctx_drm_swap_buffers cfg P data w
       = Ok tt (after w [E_printf unhandled_swap_buffers])).
Proof.
  destruct w as [api mj mn tr]. unfold gfx_ctx_drm_swap_buffers. cbn.
  split; [|split].
  - intros Hapi Hegl drm. rewrite Hegl.
    eexists; eexists. split; [|split; [reflexivity | split; [reflexivity|]]].
    + destruct api; try discriminate Hapi; cbn; unfold emit, after; cbn;
        norm_trace; reflexivity.
    + reflexivity.
  - intros Hapi Hegl data. rewrite Hegl.
    destruct api; try discriminate Hapi; reflexivity.
  - intros Hapi data.
    destruct api; try discriminate Hapi; reflexivity.
Qed.

(** C1 at a sample: OpenGL-ES selected, EGL compiled in. *)
Lemma C1_swap_buffers_sequence_witness :
  exists s : go2_surface_p,
    gfx_ctx_drm_swap_buffers cfg_gles good_platform (Some sample_drm) gles_world
      = Ok tt (after gles_world (present_sequence sample_drm s)).
Proof.
  destruct (C1_swap_buffers_sequence cfg_gles good_platform gles_world) as [H _].
  destruct (H eq_refl eq_refl sample_drm) as (s & evs & E & Hevs & _).
  exists s. rewrite <- Hevs. exact E.
Defined.

(** C1 as stated fails in a build without EGL: with OpenGL selected the call
    returns without having called the library at all. *)
Lemma C1_counterexample_no_egl :
  let w := mk_world GFX_CTX_OPENGL_API 3 0 [] in
  is_gpu_api (drm_api w) = true /\
  gfx_ctx_drm_swap_buffers cfg_no_egl good_platform (Some sample_drm) w = Ok tt w /\
  ~ exists s : go2_surface_p,
      gfx_ctx_drm_swap_buffers cfg_no_egl good_platform (Some sample_drm) w
        = Ok tt (after w (present_sequence sample_drm s)).
Proof.
  cbn zeta. split; [reflexivity|]. split; [reflexivity|].
  intros [s H]. cbv in H. discriminate H.
Qed.

(** ** Binding the API *)

(** The version test of the OpenGL case is a 32-bit computation; it is the
    plain sum as long as that sum fits. *)
Lemma version_code_wraps (major minor : Z) :
  uadd (umul major 1000) minor = (major * 1000 + minor) mod 2 ^ 32.
Proof. unfold uadd, umul, UINT_MODULUS. now rewrite Z.add_mod_idemp_l by lia. Qed.

Lemma version_code_small (major minor : Z) :
  0 <= major * 1000 + minor < 2 ^ 32 ->
  uadd (umul major 1000) minor = major * 1000 + minor.
Proof. intros H. rewrite version_code_wraps. now apply Z.mod_small. Qed.

(** What [gfx_ctx_drm_bind_api] answers, with the version test of the
    OpenGL case as the code computes it:
    - for OpenGL compiled in (HAVE_EGL and HAVE_OPENGL): false when
      EGL_KHR_create_context is missing and [major*1000+minor], computed in
      32-bit unsigned arithmetic, is at least 3001; else what
      [egl_bind_api] answers;
    - for OpenGL-ES compiled in (HAVE_EGL and HAVE_OPENGLES): false when
      EGL_KHR_create_context is missing and [major >= 3]; else what
      [egl_bind_api] answers;
    - for OpenVG compiled in (HAVE_EGL and HAVE_VG): what [egl_bind_api]
      answers, whatever the version;
    - false for GFX_CTX_NONE, for every other enumerator, and for each of
      the three APIs when it is not compiled in. *)
Theorem bind_api_result_as_computed (cfg : build_config) (P : platform)
    (major minor : Z) (w : world) :
  let bind api := returned (gfx_ctx_drm_bind_api cfg P api major minor w) in
  (HAVE_EGL cfg && HAVE_OPENGL cfg = true ->
     (EGL_KHR_create_context cfg = false ->
      3001 <= (major * 1000 + minor) mod 2 ^ 32 ->
        bind GFX_CTX_OPENGL_API = Some false) /\
     (EGL_KHR_create_context cfg = true \/ (major * 1000 + minor) mod 2 ^ 32 < 3001 ->
        bind GFX_CTX_OPENGL_API = Some (egl_bind_api P (trace w) EGL_OPENGL_API))) /\
  (HAVE_EGL cfg && HAVE_OPENGLES cfg = true ->
     (EGL_KHR_create_context cfg = false -> 3 <= major ->
        bind GFX_CTX_OPENGL_ES_API = Some false) /\
     (EGL_KHR_create_context cfg = true \/ major < 3 ->
        bind GFX_CTX_OPENGL_ES_API
          = Some (egl_bind_api P (trace w) EGL_OPENGL_ES_API))) /\
  (HAVE_EGL cfg && HAVE_VG cfg = true ->
     bind GFX_CTX_OPENVG_API = Some (egl_bind_api P (trace w) EGL_OPENVG_API)) /\
  (HAVE_EGL cfg && HAVE_OPENGL cfg = false -> bind GFX_CTX_OPENGL_API = Some false) /\
  (HAVE_EGL cfg && HAVE_OPENGLES cfg = false -> bind GFX_CTX_OPENGL_ES_API = Some false) /\
  (HAVE_EGL cfg && HAVE_VG cfg = false -> bind GFX_CTX_OPENVG_API = Some false) /\
  bind GFX_CTX_NONE = Some false /\
  (forall v : Z, bind (GFX_CTX_OTHER_API v) = Some false).
Proof.
  cbn zeta. unfold gfx_ctx_drm_bind_api. rewrite version_code_wraps.
  remember ((major * 1000 + minor) mod 2 ^ 32) as code eqn:Hcode. clear Hcode.
  assert (Hveto : forall k v : bool, (k = true \/ v = false) -> negb k && v = false).
  { intros k v [-> | ->]; [reflexivity | apply andb_false_r]. }
  split; [intros Hc; split | split; [intros Hc; split | ]].
  - intros Hk Hv. cbn. rewrite Hc, Hk.
    apply Z.leb_le in Hv. rewrite Hv. cbn. now destruct (HAVE_EGL cfg).
  - intros Hv. cbn. rewrite Hc, Hveto; [now destruct (HAVE_EGL cfg)|].
    destruct Hv as [Hk | Hv]; [now left | right; now apply Z.leb_gt].
  - intros Hk Hv. cbn. rewrite Hc, Hk.
    apply Z.leb_le in Hv. rewrite Hv. cbn. now destruct (HAVE_EGL cfg).
  - intros Hv. cbn. rewrite Hc, Hveto; [now destruct (HAVE_EGL cfg)|].
    destruct Hv as [Hk | Hv]; [now left | right; now apply Z.leb_gt].
  - repeat apply conj; try intros Hc; cbn; try rewrite Hc;
      now destruct (HAVE_EGL cfg).
Qed.

(** At samples: OpenGL-ES 3.0 is refused without the extension, and
    OpenGL-ES 2.0 is passed on to [egl_bind_api]. *)
Lemma bind_api_result_as_computed_witness :
  returned (gfx_ctx_drm_bind_api cfg_gles good_platform
              GFX_CTX_OPENGL_ES_API 3 0 initial_world) = Some false /\
  returned (gfx_ctx_drm_bind_api cfg_gles good_platform
              GFX_CTX_OPENGL_ES_API 2 0 initial_world) = Some true.
Proof.
  split.
  - destruct (bind_api_result_as_computed cfg_gles good_platform 3 0 initial_world)
      as (_ & Hes & _).
    destruct (Hes eq_refl) as [Hrefuse _]. apply Hrefuse; [reflexivity | lia].
  - destruct (bind_api_result_as_computed cfg_gles good_platform 2 0 initial_world)
      as (_ & Hes & _).
    destruct (Hes eq_refl) as [_ Hpass]. apply Hpass. right. lia.
Defined.

(** Without the extension the OpenGL case refuses every version from 3.1
    on, as long as the 32-bit sum does not wrap. *)
Lemma bind_api_refuses_unwrapped_versions (cfg : build_config) (P : platform)
    (major minor : Z) (w : world) :
  HAVE_EGL cfg && HAVE_OPENGL cfg = true ->
  EGL_KHR_create_context cfg = false ->
  0 <= major * 1000 + minor < 2 ^ 32 ->
  3001 <= major * 1000 + minor ->
  returned (gfx_ctx_drm_bind_api cfg P GFX_CTX_OPENGL_API major minor w) = Some false.
Proof.
  intros Hc Hk Hfit Hv. unfold gfx_ctx_drm_bind_api.
  rewrite version_code_small by assumption.
  apply Z.leb_le in Hv. cbn. rewrite Hc, Hk, Hv. cbn. now destruct (HAVE_EGL cfg).
Qed.

(** C4: the OpenGL version test wraps in 32 bits and lets a version through.  In a
    build with OpenGL and OpenGL-ES and without the extension, version
    4294968.0 has [major*1000+minor >= 3001], so the OpenGL bind must be
    refused; the code computes 704, passes the bind on to [egl_bind_api]
    and returns its true.  The OpenGL-ES test of the same build refuses
    that very version. *)
Lemma C4_version_gate_wraps :
  HAVE_EGL cfg_gl && HAVE_OPENGL cfg_gl = true /\
  EGL_KHR_create_context cfg_gl = false /\
  0 <= 4294968 < 2 ^ 32 /\
  3001 <= 4294968 * 1000 + 0 /\
  uadd (umul 4294968 1000) 0 = 704 /\
  returned (gfx_ctx_drm_bind_api cfg_gl good_platform
              GFX_CTX_OPENGL_API 4294968 0 initial_world) = Some true /\
  returned (gfx_ctx_drm_bind_api cfg_gl good_platform
              GFX_CTX_OPENGL_ES_API 4294968 0 initial_world) = Some false.
Proof. repeat split; try reflexivity; try lia; discriminate. Qed.

(** C10, as the code has it: whatever it goes on to answer,
    [gfx_ctx_drm_bind_api] first stores [api] in [drm_api], and in a build
    with EGL also [major] and [minor] in the EGL version globals (a build
    without EGL has nothing to store them in); no path restores them.  So
    after a bind, also a refused one, [gfx_ctx_drm_get_api] answers [api],
    and [gfx_ctx_drm_get_proc_address], [gfx_ctx_drm_swap_buffers] and
    [gfx_ctx_drm_bind_hw_render] take the branch of [api]. *)
Theorem C10_bind_api_records_before_validation (cfg : build_config) (P : platform)
    (api : gfx_ctx_api) (major minor : Z) (w : world) :
  exists (b : bool) (w' : world),
    gfx_ctx_drm_bind_api cfg P api major minor w = Ok b w' /\
    drm_api w' = api /\
    (HAVE_EGL cfg = true -> g_egl_major w' = major /\ g_egl_minor w' = minor) /\
    (HAVE_EGL cfg = false ->
       g_egl_major w' = g_egl_major w /\ g_egl_minor w' = g_egl_minor w) /\
    (forall data, gfx_ctx_drm_get_api data w' = Ok api w') /\
    (forall symbol,
       gfx_ctx_drm_get_proc_address cfg P symbol w' =
         if is_gpu_api api && HAVE_EGL cfg
         then Ok (egl_get_proc_address P (trace w') symbol)
                 (after w' [E_egl_get_proc_address symbol
                              (egl_get_proc_address P (trace w') symbol)])
         else Ok None w') /\
    (forall drm,
       gfx_ctx_drm_swap_buffers cfg P (Some drm) w' =
         if is_gpu_api api
         then if HAVE_EGL cfg
              then Ok tt (after w' (present_sequence drm
                     (go2_context_surface_lock P
                        (trace w' ++ [E_go2_context_swap_buffers (context drm)])
                        (context drm))))
              else Ok tt w'
         else Ok tt (after w' [E_printf unhandled_swap_buffers])) /\
    (forall drm enable,
       gfx_ctx_drm_bind_hw_render cfg P (Some drm) enable w' =
         if is_gpu_api api && HAVE_EGL cfg
         then Ok (Some (set_egl
                          (egl_bind_hw_render P (trace w') (Some (egl drm)) enable) drm))
                 (after w' [E_egl_bind_hw_render (Some (egl drm)) enable
                              (egl_bind_hw_render P (trace w') (Some (egl drm)) enable)])
         else Ok (Some drm) w').
Proof.
  assert (Hbind : exists (b : bool) (w' : world),
    gfx_ctx_drm_bind_api cfg P api major minor w = Ok b w' /\
    drm_api w' = api /\
    (HAVE_EGL cfg = true -> g_egl_major w' = major /\ g_egl_minor w' = minor) /\
    (HAVE_EGL cfg = false ->
       g_egl_major w' = g_egl_major w /\ g_egl_minor w' = g_egl_minor w)).
  { unfold gfx_ctx_drm_bind_api.
    remember (uadd (umul major 1000) minor) as code eqn:Hcode. clear Hcode.
    destruct w as [a0 mj mn tr]. cbn.
    destruct api, (HAVE_EGL cfg); cbn;
      repeat match goal with
             | |- context [if ?c then _ else _] => destruct c; cbn
             end;
      do 2 eexists; (split; [reflexivity|]); cbn;
      repeat apply conj; try reflexivity;
      intros H; try discriminate H; split; reflexivity. }
  destruct Hbind as (b & w' & E & Hapi & Hv1 & Hv0).
  exists b, w'. repeat apply conj; try assumption.
  - intros data. unfold gfx_ctx_drm_get_api, get_drm_api. now rewrite Hapi.
  - intros symbol. unfold gfx_ctx_drm_get_proc_address. cbn. rewrite Hapi.
    destruct api, (HAVE_EGL cfg); reflexivity.
  - intros drm. unfold gfx_ctx_drm_swap_buffers. cbn. rewrite Hapi.
    destruct api, (HAVE_EGL cfg); cbn; try reflexivity;
      unfold emit, after; cbn; norm_trace; reflexivity.
  - intros drm enable. unfold gfx_ctx_drm_bind_hw_render. cbn. rewrite Hapi.
    destruct api, (HAVE_EGL cfg); reflexivity.
Qed.

(** C10 at a sample: OpenGL-ES 3.0 is refused in a build without the
    extension, and OpenGL-ES 3.0 is what the process is left with. *)
Lemma C10_bind_api_records_before_validation_witness :
  exists w' : world,
    gfx_ctx_drm_bind_api cfg_gles good_platform GFX_CTX_OPENGL_ES_API 3 0 initial_world
      = Ok false w' /\
    drm_api w' = GFX_CTX_OPENGL_ES_API /\ g_egl_major w' = 3 /\ g_egl_minor w' = 0 /\
    gfx_ctx_drm_get_api None w' = Ok GFX_CTX_OPENGL_ES_API w'.
Proof.
  destruct (C10_bind_api_records_before_validation cfg_gles good_platform
              GFX_CTX_OPENGL_ES_API 3 0 initial_world)
    as (b & w' & E & Hapi & Hv & _ & Hget & _).
  destruct (Hv eq_refl) as [Hmajor Hminor].
  assert (Hb : b = false).
  { cbv in E. now injection E as -> _. }
  subst b. exists w'.
  split; [exact E | split; [exact Hapi | split; [exact Hmajor | split; [exact Hminor|]]]].
  apply Hget.
Defined.

(** C10 as stated fails in a build without EGL: the bind stores the API but
    records neither [major] nor [minor]. *)
Lemma C10_counterexample_no_egl :
  exists w' : world,
    gfx_ctx_drm_bind_api cfg_no_egl good_platform GFX_CTX_OPENGL_API 3 3 initial_world
      = Ok false w' /\
    drm_api w' = GFX_CTX_OPENGL_API /\
    g_egl_major w' <> 3 /\ g_egl_minor w' <> 3.
Proof.
  eexists. split; [reflexivity|]. cbn. repeat split; discriminate.
Qed.

(** ** Capability flags *)

Arguments BIT32_SET : simpl never.
Arguments BIT32_GET : simpl never.

Section Bits.

Lemma flag_bit_nonneg (bit : Z) : 0 <= Z.land bit 31.
Proof. apply Z.land_nonneg. right. lia. Qed.

Lemma flag_bit_small (bit : Z) : 0 <= bit < 32 -> Z.land bit 31 = bit.
Proof.
  intros H. change 31 with (Z.ones 5).
  rewrite Z.land_ones by lia. apply Z.mod_small. cbn. lia.
Qed.

Lemma truthy_b2z (b : bool) : truthy (Z.b2z b) = b.
Proof. now destruct b. Qed.

(** Reading a flag is testing its bit. *)
Lemma has_flag_testbit (flags bit : Z) :
  has_flag flags bit = Z.testbit flags (Z.land bit 31).
Proof.
  unfold has_flag, BIT32_GET.
  change 1 with (Z.ones 1) at 1.
  rewrite Z.land_ones by lia. change (2 ^ 1) with 2.
  rewrite <- Z.bit0_mod, truthy_b2z.
  rewrite Z.shiftr_spec by lia. reflexivity.
Qed.

(** Setting a flag sets its bit and no other. *)
Lemma BIT32_SET_testbit (a bit n : Z) :
  0 <= n ->
  Z.testbit (BIT32_SET a bit) n = Z.testbit a n || (Z.land bit 31 =? n).
Proof.
  intros Hn. unfold BIT32_SET.
  rewrite Z.lor_spec, Z.shiftl_1_l.
  now rewrite Z.pow2_bits_eqb by apply flag_bit_nonneg.
Qed.

Lemma has_flag_set_same (a bit : Z) : has_flag (BIT32_SET a bit) bit = true.
Proof.
  rewrite has_flag_testbit, BIT32_SET_testbit by apply flag_bit_nonneg.
  rewrite Z.eqb_refl. apply orb_true_r.
Qed.

Lemma has_flag_set_keeps (a bit other : Z) :
  has_flag a bit = true -> has_flag (BIT32_SET a other) bit = true.
Proof.
  rewrite !has_flag_testbit. intros H.
  rewrite BIT32_SET_testbit by apply flag_bit_nonneg. now rewrite H.
Qed.

Lemma has_flag_set_other (a bit other : Z) :
  0 <= bit < 32 -> 0 <= other < 32 -> other <> bit ->
  has_flag (BIT32_SET a other) bit = has_flag a bit.
Proof.
  intros Hb Ho Hne. rewrite !has_flag_testbit.
  rewrite BIT32_SET_testbit by apply flag_bit_nonneg.
  rewrite !flag_bit_small by assumption.
  destruct (Z.eqb_spec other bit); [contradiction | apply orb_false_r].
Qed.

Lemma has_flag_zero (bit : Z) : has_flag 0 bit = false.
Proof. rewrite has_flag_testbit. apply Z.bits_0. Qed.

End Bits.

Lemma string_is_equal_spec (ident : option string) (name : string) :
  string_is_equal ident (Some name) = true <-> ident = Some name.
Proof.
  destruct ident as [s|]; cbn.
  - rewrite String.eqb_eq. split; [now intros -> | now intros [= ->]].
  - split; discriminate.
Qed.

(** C7: with the four flag enumerators numbering four different bits, the
    flag set [gfx_ctx_drm_get_flags] returns for a session
    - always holds CUSTOMIZABLE_SWAPCHAIN_IMAGES;
    - holds GL_CORE_CONTEXT exactly when [core_hw_context_enable] is set;
    - holds SHADERS_SLANG exactly when the video driver's identifier is
      "glcore" and both HAVE_SLANG and HAVE_SPIRV_CROSS are compiled in;
    - holds SHADERS_GLSL exactly when the identifier is not "glcore";
    so never both shader flags, and neither of them when the identifier is
    "glcore" without the two prerequisites. *)
Theorem C7_get_flags_contents (cfg : build_config) (fl : display_flags) (P : platform)
    (drm : gfx_ctx_drm_data_t) (w : world) :
  display_flags_wf fl ->
  exists (flags : Z) (ident : option string),
    ident = video_driver_get_ident P (trace w) /\
    gfx_ctx_drm_get_flags cfg fl P (Some drm) w
      = Ok flags (after w [E_video_driver_get_ident ident]) /\
    has_flag flags (GFX_CTX_FLAGS_CUSTOMIZABLE_SWAPCHAIN_IMAGES fl) = true /\
    has_flag flags (GFX_CTX_FLAGS_GL_CORE_CONTEXT fl) = core_hw_context_enable drm /\
    (has_flag flags (GFX_CTX_FLAGS_SHADERS_SLANG fl) = true <->
       ident = Some "glcore"%string /\ HAVE_SLANG cfg = true /\ HAVE_SPIRV_CROSS cfg = true) /\
    (has_flag flags (GFX_CTX_FLAGS_SHADERS_GLSL fl) = true <->
       ident <> Some "glcore"%string) /\
    has_flag flags (GFX_CTX_FLAGS_SHADERS_SLANG fl)
      && has_flag flags (GFX_CTX_FLAGS_SHADERS_GLSL fl) = false.
Proof.
  intros (Hcore & Hswap & Hglsl & Hslang & Hcs & Hcg & Hcl & Hsg & Hsl & Hgl).
  unfold gfx_ctx_drm_get_flags. cbn.
  set (ident := video_driver_get_ident P (trace w)).
  pose proof (string_is_equal_spec ident "glcore") as Hid.
  set (f0 := BIT32_SET 0 (GFX_CTX_FLAGS_CUSTOMIZABLE_SWAPCHAIN_IMAGES fl)).
  set (f1 := if core_hw_context_enable drm
             then BIT32_SET f0 (GFX_CTX_FLAGS_GL_CORE_CONTEXT fl) else f0).
  assert (H0swap : has_flag f0 (GFX_CTX_FLAGS_CUSTOMIZABLE_SWAPCHAIN_IMAGES fl) = true)
    by apply has_flag_set_same.
  assert (H0 : forall bit, 0 <= bit < 32 ->
                 bit <> GFX_CTX_FLAGS_CUSTOMIZABLE_SWAPCHAIN_IMAGES fl ->
                 has_flag f0 bit = false).
  { intros bit Hb Hne. unfold f0.
    rewrite has_flag_set_other by (try assumption; congruence). apply has_flag_zero. }
  assert (H1swap : has_flag f1 (GFX_CTX_FLAGS_CUSTOMIZABLE_SWAPCHAIN_IMAGES fl) = true).
  { unfold f1. destruct (core_hw_context_enable drm); [|exact H0swap].
    now apply has_flag_set_keeps. }
  assert (H1core : has_flag f1 (GFX_CTX_FLAGS_GL_CORE_CONTEXT fl)
                   = core_hw_context_enable drm).
  { unfold f1. destruct (core_hw_context_enable drm).
    - apply has_flag_set_same.
    - now apply H0. }
  assert (H1 : forall bit, 0 <= bit < 32 ->
                 bit <> GFX_CTX_FLAGS_CUSTOMIZABLE_SWAPCHAIN_IMAGES fl ->
                 bit <> GFX_CTX_FLAGS_GL_CORE_CONTEXT fl ->
                 has_flag f1 bit = false).
  { intros bit Hb Hns Hnc. unfold f1. destruct (core_hw_context_enable drm).
    - rewrite has_flag_set_other by (try assumption; congruence). now apply H0.
    - now apply H0. }
  eexists. exists ident. split; [reflexivity|]. split; [reflexivity|].
  destruct (string_is_equal ident (Some "glcore"%string)) eqn:Eid.
  - assert (Hident : ident = Some "glcore"%string) by now apply Hid.
    destruct (HAVE_SLANG cfg), (HAVE_SPIRV_CROSS cfg); cbn [andb];
      repeat apply conj;
      rewrite ?has_flag_set_same, ?has_flag_set_other by (try assumption; congruence);
      rewrite ?H1 by (try assumption; congruence);
      try assumption; try reflexivity;
      try (intros H; try discriminate H; try (destruct H as (_ & ? & ?); discriminate);
           try contradiction; now repeat split).
  - assert (Hident : ident <> Some "glcore"%string).
    { intros E. apply Hid in E. discriminate E. }
    repeat apply conj;
      rewrite ?has_flag_set_same, ?has_flag_set_other by (try assumption; congruence);
      rewrite ?H1 by (try assumption; congruence);
      try assumption; try reflexivity;
      try (intros H; try discriminate H; try (destruct H as (? & _); contradiction);
           assumption).
Qed.

(** C7 with the frontend's numbering, for a session that did not ask for a
    core context. *)
Lemma C7_get_flags_contents_witness :
  exists flags : Z,
    returned (gfx_ctx_drm_get_flags cfg_gl frontend_flags good_platform
                (Some sample_drm) initial_world) = Some flags /\
    has_flag flags (GFX_CTX_FLAGS_CUSTOMIZABLE_SWAPCHAIN_IMAGES frontend_flags) = true /\
    has_flag flags (GFX_CTX_FLAGS_GL_CORE_CONTEXT frontend_flags) = false.
Proof.
  assert (Hwf : display_flags_wf frontend_flags).
  { unfold display_flags_wf, frontend_flags. cbn. repeat split; lia. }
  destruct (C7_get_flags_contents cfg_gl frontend_flags good_platform
              sample_drm initial_world Hwf)
    as (flags & ident & _ & E & Hswap & Hcore & _).
  exists flags. rewrite E. repeat split; assumption.
Defined.

(** C8: on a session, [gfx_ctx_drm_set_flags] with a flag set that holds
    GL_CORE_CONTEXT sets [core_hw_context_enable], after which
    [gfx_ctx_drm_get_flags] reports GL_CORE_CONTEXT; with a flag set that
    does not hold it, whatever else it holds, the session is left as it
    was.  Either way nothing else changes, no library call is made, and a
    [core_hw_context_enable] that was set stays set. *)
Theorem C8_set_flags_core_only (cfg : build_config) (fl : display_flags) (P : platform)
    (drm : gfx_ctx_drm_data_t) (F : Z) (w : world) :
  (has_flag F (GFX_CTX_FLAGS_GL_CORE_CONTEXT fl) = true ->
     gfx_ctx_drm_set_flags fl (Some drm) F w
       = Ok (Some (set_core_hw_context_enable true drm)) w /\
     forall w2 : world,
     exists (flags : Z) (w3 : world),
       gfx_ctx_drm_get_flags cfg fl P (Some (set_core_hw_context_enable true drm)) w2
         = Ok flags w3 /\
       has_flag flags (GFX_CTX_FLAGS_GL_CORE_CONTEXT fl) = true) /\
  (has_flag F (GFX_CTX_FLAGS_GL_CORE_CONTEXT fl) = false ->
     gfx_ctx_drm_set_flags fl (Some drm) F w = Ok (Some drm) w) /\
  (exists drm' : gfx_ctx_drm_data_t,
     gfx_ctx_drm_set_flags fl (Some drm) F w = Ok (Some drm') w /\
     (core_hw_context_enable drm = true -> core_hw_context_enable drm' = true) /\
     display drm' = display drm /\ presenter drm' = presenter drm /\
     context drm' = context drm /\ interval drm' = interval drm /\
     fb_width drm' = fb_width drm /\ fb_height drm' = fb_height drm /\
     egl drm' = egl drm).
Proof.
  unfold gfx_ctx_drm_set_flags.
  change (truthy (BIT32_GET F (GFX_CTX_FLAGS_GL_CORE_CONTEXT fl)))
    with (has_flag F (GFX_CTX_FLAGS_GL_CORE_CONTEXT fl)).
  split; [|split].
  - intros HF. rewrite HF. split; [reflexivity|].
    intros w2. unfold gfx_ctx_drm_get_flags. cbn.
    do 2 eexists. split; [reflexivity|].
    destruct (string_is_equal _ _); [destruct (HAVE_SLANG cfg && HAVE_SPIRV_CROSS cfg)|];
      first [ apply has_flag_set_same
            | apply has_flag_set_keeps; apply has_flag_set_same ].
  - intros HF. now rewrite HF.
  - destruct (has_flag F (GFX_CTX_FLAGS_GL_CORE_CONTEXT fl)).
    + exists (set_core_hw_context_enable true drm). cbn. repeat split.
    + exists drm. repeat split; auto.
Qed.

(** C8 at samples, with the frontend's numbering: the flag set 2 holds
    only GL_CORE_CONTEXT, the flag set 8 only CUSTOMIZABLE_SWAPCHAIN_IMAGES. *)
Lemma C8_set_flags_core_only_witness :
  gfx_ctx_drm_set_flags frontend_flags (Some sample_drm) 2 initial_world
    = Ok (Some (set_core_hw_context_enable true sample_drm)) initial_world /\
  gfx_ctx_drm_set_flags frontend_flags (Some sample_drm) 8 initial_world
    = Ok (Some sample_drm) initial_world.
Proof.
  destruct (C8_set_flags_core_only cfg_gl frontend_flags good_platform
              sample_drm 2 initial_world) as (Hset & _ & _).
  destruct (C8_set_flags_core_only cfg_gl frontend_flags good_platform
              sample_drm 8 initial_world) as (_ & Hkeep & _).
  split.
  - apply Hset. reflexivity.
  - apply Hkeep. reflexivity.
Defined.

(** ** The rendering context over a session *)

Ltac split_branches :=
  repeat (match goal with
          | |- context [if ?b then _ else _] => destruct b eqn:?
          | |- context [match ?x with Some _ => _ | None => _ end] => destruct x eqn:?
          end; cbn -[Z.ltb Z.leb uadd umul BIT32_GET]).

(** One call on a live handle returns, leaves a live handle, and touches the
    [context] field only if it is a mode-set (which may fill it) or a
    destroy (which empties it). *)
Lemma do_call_step (cfg : build_config) (fl : display_flags) (P : platform)
    (c : driver_call) (drm : gfx_ctx_drm_data_t) (w : world) :
  exists (drm' : gfx_ctx_drm_data_t) (w' : world),
    do_call cfg fl P (Some drm) c w = Ok (Some drm') w' /\
    exists evs : list event,
      trace w' = trace w ++ evs /\
      (is_set_video_mode c = false -> context drm = None -> context drm' = None) /\
      (is_destroy c = false -> context drm <> None ->
         context drm' = context drm /\ no_context_create evs = true).
Proof.
  destruct w as [a mj mn tr]. destruct drm as [eg d p cx i fw fh core].
  destruct c; cbn -[Z.ltb Z.leb uadd umul BIT32_GET].
  all: unfold gfx_ctx_drm_bind_api, gfx_ctx_drm_swap_interval,
         gfx_ctx_drm_swap_buffers, gfx_ctx_drm_input_driver,
         gfx_ctx_drm_get_proc_address, gfx_ctx_drm_get_flags,
         gfx_ctx_drm_set_flags, gfx_ctx_drm_bind_hw_render,
         gfx_ctx_drm_check_window, gfx_ctx_drm_get_api;
       cbn -[Z.ltb Z.leb uadd umul BIT32_GET].
  all: try destruct api.
  all: try destruct a.
  all: split_branches.
  all: unfold call, emit; cbn -[Z.ltb Z.leb uadd umul BIT32_GET].
  all: split_branches.
  all: do 2 eexists; (split; [reflexivity|]); cbn.
  all: first [ exists []; split; [now rewrite app_nil_r|]
             | eexists; split; [norm_trace; reflexivity|] ].
  all: split; intros H1 H2; try discriminate H1;
         try assumption; try reflexivity;
         try (exfalso; apply H2; reflexivity); split; reflexivity.
Qed.

Lemma run_calls_keeps_null (cfg : build_config) (fl : display_flags) (P : platform)
    (cs : list driver_call) :
  forallb (fun c => negb (is_set_video_mode c)) cs = true ->
  forall (drm : gfx_ctx_drm_data_t) (w : world),
    context drm = None ->
    exists (drm' : gfx_ctx_drm_data_t) (w' : world),
      run_calls cfg fl P cs (Some drm) w = Ok (Some drm') w' /\ context drm' = None.
Proof.
  induction cs as [|c cs IH]; intros Hcs drm w Hnull.
  - exists drm, w. split; [reflexivity | assumption].
  - cbn in Hcs. apply andb_prop in Hcs. destruct Hcs as [Hc Hcs].
    apply negb_true_iff in Hc.
    destruct (do_call_step cfg fl P c drm w) as (drm1 & w1 & E & evs & _ & Hkeep & _).
    destruct (IH Hcs drm1 w1 (Hkeep Hc Hnull)) as (drm' & w' & E' & Hnull').
    exists drm', w'. split; [|assumption].
    cbn. rewrite E. exact E'.
Qed.

Lemma run_calls_keeps_context (cfg : build_config) (fl : display_flags) (P : platform)
    (cs : list driver_call) :
  forallb (fun c => negb (is_destroy c)) cs = true ->
  forall (drm : gfx_ctx_drm_data_t) (w : world),
    context drm <> None ->
    exists (drm' : gfx_ctx_drm_data_t) (w' : world) (evs : list event),
      run_calls cfg fl P cs (Some drm) w = Ok (Some drm') w' /\
      context drm' = context drm /\
      trace w' = trace w ++ evs /\ no_context_create evs = true.
Proof.
  induction cs as [|c cs IH]; intros Hcs drm w Hctx.
  - exists drm, w, []. repeat split. now rewrite app_nil_r.
  - cbn in Hcs. apply andb_prop in Hcs. destruct Hcs as [Hc Hcs].
    apply negb_true_iff in Hc.
    destruct (do_call_step cfg fl P c drm w) as (drm1 & w1 & E & evs & Ht & _ & Hkeep).
    destruct (Hkeep Hc Hctx) as [Hsame Hevs].
    assert (Hctx1 : context drm1 <> None) by now rewrite Hsame.
    destruct (IH Hcs drm1 w1 Hctx1) as (drm' & w' & evs' & E' & Hsame' & Ht' & Hevs').
    exists drm', w', (evs ++ evs'). repeat split.
    + cbn. rewrite E. exact E'.
    + now rewrite Hsame', Hsame.
    + now rewrite Ht', Ht, app_assoc.
    + unfold no_context_create in *. rewrite forallb_app. now rewrite Hevs, Hevs'.
Qed.

(** C2: the [context] field of a session
    - is NULL when [gfx_ctx_drm_init] returns the session;
    - stays NULL over any calls other than a mode-set;
    - when [gfx_ctx_drm_set_video_mode] finds it NULL, receives what
      go2_context_create answers, and so is non-NULL after a mode-set on a
      platform whose context creation succeeds;
    - keeps its handle over any calls other than a destroy, none of which
      calls go2_context_create; in particular a further mode-set only makes
      the context current and clears;
    - is NULL again when [gfx_ctx_drm_destroy] returns. *)
Theorem C2_rendering_context_lifecycle (cfg : build_config) (fl : display_flags)
    (P : platform) :
  (forall w : world,
     exists (data : option gfx_ctx_drm_data_t) (w' : world),
       gfx_ctx_drm_init P w = Ok data w' /\
       forall drm, data = Some drm -> context drm = None) /\
  (forall (cs : list driver_call) (drm : gfx_ctx_drm_data_t) (w : world),
     context drm = None ->
     forallb (fun c => negb (is_set_video_mode c)) cs = true ->
     exists (drm' : gfx_ctx_drm_data_t) (w' : world),
       run_calls cfg fl P cs (Some drm) w = Ok (Some drm') w' /\ context drm' = None) /\
  (forall (drm : gfx_ctx_drm_data_t) (w : world) (width height : Z) (fullscreen : bool),
     exists (drm' : gfx_ctx_drm_data_t) (w' : world),
       gfx_ctx_drm_set_video_mode P (Some drm) width height fullscreen w
         = Ok (true, Some drm') w' /\
       (context_creation_succeeds P -> context drm' <> None) /\
       (context drm = None ->
          context drm' = go2_context_create P
                           (trace w ++ [E_frontend_driver_install_signal_handler])
                           (display drm) 480 320 mode_attr /\
          w' = after w [E_frontend_driver_install_signal_handler;
                        E_go2_context_create (display drm) 480 320 mode_attr (context drm');
                        E_go2_context_make_current (context drm');
                        E_glClear GL_COLOR_BUFFER_BIT])) /\
  (forall (cs : list driver_call) (drm : gfx_ctx_drm_data_t) (w : world),
     context drm <> None ->
     forallb (fun c => negb (is_destroy c)) cs = true ->
     exists (drm' : gfx_ctx_drm_data_t) (w' : world) (evs : list event),
       run_calls cfg fl P cs (Some drm) w = Ok (Some drm') w' /\
       context drm' = context drm /\
       trace w' = trace w ++ evs /\ no_context_create evs = true) /\
  (forall (drm : gfx_ctx_drm_data_t) (w : world) (width height : Z) (fullscreen : bool),
     context drm <> None ->
     exists drm' : gfx_ctx_drm_data_t,
       gfx_ctx_drm_set_video_mode P (Some drm) width height fullscreen w
         = Ok (true, Some drm')
              (after w [E_frontend_driver_install_signal_handler;
                        E_go2_context_make_current (context drm);
                        E_glClear GL_COLOR_BUFFER_BIT]) /\
       context drm' = context drm) /\
  (forall (drm : gfx_ctx_drm_data_t) (w : world),
     exists (drm' : gfx_ctx_drm_data_t) (w' : world),
       gfx_ctx_drm_destroy (Some drm) w = Ok (Some drm') w' /\ context drm' = None).
Proof.
  split; [|split; [|split; [|split; [|split]]]].
  - intros w. unfold gfx_ctx_drm_init. cbn.
    destruct (calloc_ok P (trace w)); cbn; do 2 eexists; (split; [reflexivity|]).
    + intros drm [= <-]. reflexivity.
    + discriminate.
  - intros cs drm w Hnull Hcs. now apply run_calls_keeps_null.
  - intros [eg d p c i fw fh core] w width height fullscreen. cbn.
    destruct c as [c|]; cbn; unfold emit; cbn.
    + do 2 eexists. split; [reflexivity|]. cbn. split; [discriminate|].
      intros H; discriminate H.
    + do 2 eexists. split; [reflexivity|]. cbn.
      split; [intros Hcreate; apply Hcreate|].
      intros _. split; [reflexivity|].
      unfold after, mode_attr. cbn. norm_trace. reflexivity.
  - intros cs drm w Hctx Hcs. now apply run_calls_keeps_context.
  - intros [eg d p c i fw fh core] w width height fullscreen Hctx. cbn in *.
    destruct c as [c|]; [|contradiction]. cbn. unfold emit, after. cbn.
    eexists. split; [norm_trace; reflexivity|]. reflexivity.
  - intros [eg d p c i fw fh core] w. cbn.
    destruct c as [c|]; cbn; unfold emit; cbn;
      do 2 eexists; (split; [reflexivity|]); reflexivity.
Qed.

(** C2 at a sample: the first mode-set of a session on the sample platform
    leaves a context, which three presentations and a second mode-set keep. *)
Lemma C2_rendering_context_lifecycle_witness :
  exists (drm1 drm2 : gfx_ctx_drm_data_t) (w1 w2 : world),
    gfx_ctx_drm_set_video_mode good_platform (Some (set_context None sample_drm))
      800 600 false gles_world = Ok (true, Some drm1) w1 /\
    context drm1 <> None /\
    run_calls cfg_gles frontend_flags good_platform
      [Call_swap_buffers; Call_swap_buffers; Call_swap_buffers;
       Call_set_video_mode 800 600 false] (Some drm1) w1 = Ok (Some drm2) w2 /\
    context drm2 = context drm1.
Proof.
  assert (Hcreate : context_creation_succeeds good_platform).
  { intros h d w ht attr. discriminate. }
  destruct (C2_rendering_context_lifecycle cfg_gles frontend_flags good_platform)
    as (_ & _ & Hmode & Hkeep & _).
  destruct (Hmode (set_context None sample_drm) gles_world 800 600 false)
    as (drm1 & w1 & E1 & Hctx & _).
  specialize (Hctx Hcreate).
  destruct (Hkeep [Call_swap_buffers; Call_swap_buffers; Call_swap_buffers;
                   Call_set_video_mode 800 600 false] drm1 w1 Hctx eq_refl)
    as (drm2 & w2 & evs & E2 & Hsame & _).
  exists drm1, drm2, w1, w2. repeat split; assumption.
Defined.

(** The answer of go2_context_create is stored unchecked: where it is NULL
    the mode-set still returns true and the field stays NULL. *)
Example mode_set_unchecked_creation :
  gfx_ctx_drm_set_video_mode no_context_platform (Some (set_context None sample_drm))
    800 600 false gles_world
  = Ok (true, Some (set_context None sample_drm))
       (after gles_world
          [E_frontend_driver_install_signal_handler;
           E_go2_context_create (Some 2%N) 480 320 mode_attr None;
           E_go2_context_make_current None;
           E_glClear GL_COLOR_BUFFER_BIT]).
Proof. reflexivity. Qed.

(** ** A whole session *)

(** init, bind OpenGL-ES 2.0, mode-set at 800x600, three presentations,
    destroy: the bind succeeds, the frame stays 480x320, each presentation
    locks and unlocks one surface, and the teardown releases the context,
    the presenter and the display in that order. *)
Example session_scenario :
  match gfx_ctx_drm_init good_platform initial_world with
  | Ok data w =>
      run_calls cfg_gles frontend_flags good_platform
        [Call_bind_api GFX_CTX_OPENGL_ES_API 2 0;
         Call_set_video_mode 800 600 false;
         Call_swap_buffers; Call_swap_buffers; Call_swap_buffers;
         Call_destroy] data w
  | Segv => Segv
  end
  = Ok (Some (mk_drm 0%N None None None 0 480 320 false))
       (mk_world GFX_CTX_OPENGL_ES_API 2 0
          [E_calloc true;
           E_go2_display_create (Some 2%N);
           E_go2_presenter_create (Some 2%N) DRM_FORMAT_RGB565 0xff080808 (Some 3%N);
           E_egl_bind_api EGL_OPENGL_ES_API true;
           E_frontend_driver_install_signal_handler;
           E_go2_context_create (Some 2%N) 480 320 mode_attr (Some 6%N);
           E_go2_context_make_current (Some 6%N);
           E_glClear GL_COLOR_BUFFER_BIT;
           E_go2_context_swap_buffers (Some 6%N);
           E_go2_context_surface_lock (Some 6%N) (Some 10%N);
           E_go2_presenter_post (Some 3%N) (Some 10%N) 0 0 480 320 0 0 320 480
             GO2_ROTATION_DEGREES_270;
           E_go2_context_surface_unlock (Some 6%N) (Some 10%N);
           E_go2_context_swap_buffers (Some 6%N);
           E_go2_context_surface_lock (Some 6%N) (Some 14%N);
           E_go2_presenter_post (Some 3%N) (Some 14%N) 0 0 480 320 0 0 320 480
             GO2_ROTATION_DEGREES_270;
           E_go2_context_surface_unlock (Some 6%N) (Some 14%N);
           E_go2_context_swap_buffers (Some 6%N);
           E_go2_context_surface_lock (Some 6%N) (Some 18%N);
           E_go2_presenter_post (Some 3%N) (Some 18%N) 0 0 480 320 0 0 320 480
             GO2_ROTATION_DEGREES_270;
           E_go2_context_surface_unlock (Some 6%N) (Some 18%N);
           E_go2_context_destroy (Some 6%N);
           E_go2_presenter_destroy (Some 3%N);
           E_go2_display_destroy (Some 2%N)]).
Proof. reflexivity. Qed.

(** * Further properties of the driver *)

(** ** What one call touches *)

Lemma surface_eqb_refl (s : go2_surface_p) : surface_eqb s s = true.
Proof. destruct s; cbn; [apply N.eqb_refl | reflexivity]. Qed.

Lemma lock_protocol_app (st : lock_state) (e1 e2 : list event) :
  lock_protocol st (e1 ++ e2) = lock_protocol (lock_protocol st e1) e2.
Proof. apply fold_left_app. Qed.

Ltac fold_has_flag :=
  try match goal with
      | |- context [truthy (BIT32_GET ?F ?b)] =>
          change (truthy (BIT32_GET F b)) with (has_flag F b)
      end.

Ltac split_branches' :=
  repeat (match goal with
          | |- context [if ?b then _ else _] => destruct b eqn:?
          | |- context [match ?x with Some _ => _ | None => _ end] => destruct x eqn:?
          end; cbn -[Z.ltb Z.leb uadd umul BIT32_GET has_flag]).

Ltac run_entry_points :=
  unfold gfx_ctx_drm_bind_api, gfx_ctx_drm_swap_interval,
    gfx_ctx_drm_swap_buffers, gfx_ctx_drm_input_driver,
    gfx_ctx_drm_get_proc_address, gfx_ctx_drm_get_flags,
    gfx_ctx_drm_set_flags, gfx_ctx_drm_bind_hw_render,
    gfx_ctx_drm_check_window, gfx_ctx_drm_get_api;
  cbn -[Z.ltb Z.leb uadd umul BIT32_GET has_flag]; fold_has_flag.

(** The footprint of each entry point on a live handle: which fields of the
    session and which process-wide variables it writes, and what its library
    calls may be. *)
Lemma do_call_footprint (cfg : build_config) (fl : display_flags) (P : platform)
    (c : driver_call) (drm : gfx_ctx_drm_data_t) (w : world) :
  exists (drm' : gfx_ctx_drm_data_t) (w' : world) (evs : list event),
    do_call cfg fl P (Some drm) c w = Ok (Some drm') w' /\
    trace w' = trace w ++ evs /\
    interval drm' = interval_after c (interval drm) /\
    core_hw_context_enable drm' = core_hw_context_enable drm || requests_core fl c /\
    (fb_width drm', fb_height drm')
      = (if is_set_video_mode c then (480, 320) else (fb_width drm, fb_height drm)) /\
    display drm' = (if is_destroy c then None else display drm) /\
    presenter drm' = (if is_destroy c then None else presenter drm) /\
    drm_api w' = api_after c (drm_api w) /\
    (g_egl_major w', g_egl_minor w')
      = version_after cfg c (g_egl_major w, g_egl_minor w) /\
    lock_protocol Unlocked evs = Unlocked /\
    (is_destroy c = false -> forallb (fun e => negb (is_release e)) evs = true) /\
    forallb (fun e => negb (is_display_create e)) evs = true.
Proof.
  destruct w as [a mj mn tr]. destruct drm as [eg d p cx i fw fh core].
  destruct c; cbn -[Z.ltb Z.leb uadd umul BIT32_GET has_flag].
  all: run_entry_points.
  all: try destruct api.
  all: try destruct a.
  all: split_branches'.
  all: unfold call, emit; cbn -[Z.ltb Z.leb uadd umul BIT32_GET has_flag].
  all: split_branches'.
  all: do 3 eexists; (split; [reflexivity|]); cbn -[has_flag].
  all: (split; [ first [ instantiate (1 := []); now rewrite app_nil_r
                       | norm_trace; reflexivity ] | ]).
  all: repeat (progress (cbn -[has_flag];
                         rewrite ?surface_eqb_refl, ?orb_true_r, ?orb_false_r)).
  all: repeat apply conj; try reflexivity;
         try (intros H; try discriminate H; reflexivity).
Qed.

(** The same over a sequence of calls. *)
Lemma run_calls_footprint (cfg : build_config) (fl : display_flags) (P : platform)
    (cs : list driver_call) :
  forall (drm : gfx_ctx_drm_data_t) (w : world),
  exists (drm' : gfx_ctx_drm_data_t) (w' : world) (evs : list event),
    run_calls cfg fl P cs (Some drm) w = Ok (Some drm') w' /\
    trace w' = trace w ++ evs /\
    interval drm' = last_interval cs (interval drm) /\
    core_hw_context_enable drm'
      = core_hw_context_enable drm || existsb (requests_core fl) cs /\
    (fb_width drm', fb_height drm')
      = (if existsb is_set_video_mode cs then (480, 320)
         else (fb_width drm, fb_height drm)) /\
    display drm' = (if existsb is_destroy cs then None else display drm) /\
    presenter drm' = (if existsb is_destroy cs then None else presenter drm) /\
    drm_api w' = last_api cs (drm_api w) /\
    (g_egl_major w', g_egl_minor w')
      = last_version cfg cs (g_egl_major w, g_egl_minor w) /\
    lock_protocol Unlocked evs = Unlocked /\
    (existsb is_destroy cs = false ->
       forallb (fun e => negb (is_release e)) evs = true) /\
    forallb (fun e => negb (is_display_create e)) evs = true.
Proof.
  induction cs as [|c cs IH]; intros drm w.
  - exists drm, w, []. cbn. rewrite app_nil_r, orb_false_r. repeat split.
  - destruct (do_call_footprint cfg fl P c drm w)
      as (d1 & w1 & e1 & E1 & Ht1 & Hi1 & Hc1 & Hf1 & Hd1 & Hp1 & Ha1 & Hv1
          & Hl1 & Hr1 & Hn1).
    destruct (IH d1 w1)
      as (d2 & w2 & e2 & E2 & Ht2 & Hi2 & Hc2 & Hf2 & Hd2 & Hp2 & Ha2 & Hv2
          & Hl2 & Hr2 & Hn2).
    exists d2, w2, (e1 ++ e2).
    split; [cbn; rewrite E1; exact E2|].
    split; [now rewrite Ht2, Ht1, app_assoc|].
    split; [now rewrite Hi2, Hi1|].
    split; [rewrite Hc2, Hc1; cbn; now rewrite orb_assoc|].
    split; [rewrite Hf2, Hf1; cbn;
            now destruct (is_set_video_mode c), (existsb is_set_video_mode cs)|].
    split; [rewrite Hd2, Hd1; cbn; now destruct (is_destroy c), (existsb is_destroy cs)|].
    split; [rewrite Hp2, Hp1; cbn; now destruct (is_destroy c), (existsb is_destroy cs)|].
    split; [now rewrite Ha2, Ha1|].
    split; [now rewrite Hv2, Hv1|].
    split; [now rewrite lock_protocol_app, Hl1|].
    split.
    + cbn. intros H. apply orb_false_iff in H. destruct H as [Hc Hcs].
      rewrite forallb_app, (Hr1 Hc), (Hr2 Hcs). reflexivity.
    + now rewrite forallb_app, Hn1, Hn2.
Qed.

Lemma last_interval_unchanged (cs : list driver_call) (i : Z) :
  forallb (fun c => negb (is_swap_interval c)) cs = true -> last_interval cs i = i.
Proof.
  revert i. induction cs as [|c cs IH]; intros i H; [reflexivity|].
  cbn in H. apply andb_prop in H. destruct H as [Hc Hcs].
  cbn. rewrite (IH _ Hcs). now destruct c.
Qed.

Lemma last_api_unchanged (cs : list driver_call) (a : gfx_ctx_api) :
  forallb (fun c => negb (is_bind_api c)) cs = true -> last_api cs a = a.
Proof.
  revert a. induction cs as [|c cs IH]; intros a H; [reflexivity|].
  cbn in H. apply andb_prop in H. destruct H as [Hc Hcs].
  cbn. rewrite (IH _ Hcs). now destruct c.
Qed.

Lemma last_version_unchanged (cfg : build_config) (cs : list driver_call) (v : Z * Z) :
  forallb (fun c => negb (is_bind_api c)) cs = true -> last_version cfg cs v = v.
Proof.
  unfold last_version.
  revert v. induction cs as [|c cs IH]; intros v H; [reflexivity|].
  cbn in H. apply andb_prop in H. destruct H as [Hc Hcs].
  cbn [fold_left]. rewrite (IH _ Hcs). now destruct c.
Qed.

(** ** Sessions on a live handle *)

(** X2: The stored swap interval is the one of the last swap-interval call,
    whatever was called before or after it; calls other than swap-interval
    never change it. *)
Theorem interval_last_request_wins (cfg : build_config) (fl : display_flags)
    (P : platform) (drm : gfx_ctx_drm_data_t) (w : world) :
  (forall (before later : list driver_call) (n : Z),
     forallb (fun c => negb (is_swap_interval c)) later = true ->
     exists (drm' : gfx_ctx_drm_data_t) (w' : world),
       run_calls cfg fl P (before ++ Call_swap_interval n :: later) (Some drm) w
         = Ok (Some drm') w' /\
       interval drm' = n) /\
  (forall cs : list driver_call,
     forallb (fun c => negb (is_swap_interval c)) cs = true ->
     exists (drm' : gfx_ctx_drm_data_t) (w' : world),
       run_calls cfg fl P cs (Some drm) w = Ok (Some drm') w' /\
       interval drm' = interval drm).
Proof.
  split.
  - intros before later n Hlater.
    destruct (run_calls_footprint cfg fl P (before ++ Call_swap_interval n :: later) drm w)
      as (drm' & w' & evs & E & _ & Hi & _).
    exists drm', w'. split; [exact E|].
    rewrite Hi. unfold last_interval. rewrite fold_left_app. cbn.
    now apply last_interval_unchanged.
  - intros cs Hcs.
    destruct (run_calls_footprint cfg fl P cs drm w) as (drm' & w' & evs & E & _ & Hi & _).
    exists drm', w'. split; [exact E|].
    rewrite Hi. now apply last_interval_unchanged.
Qed.

Lemma interval_last_request_wins_witness :
  exists (drm' : gfx_ctx_drm_data_t) (w' : world),
    run_calls cfg_gles frontend_flags good_platform
      ([Call_swap_interval 0; Call_swap_buffers] ++
       Call_swap_interval 3 :: [Call_swap_buffers; Call_destroy])
      (Some sample_drm) gles_world = Ok (Some drm') w' /\
    interval drm' = 3.
Proof.
  destruct (interval_last_request_wins cfg_gles frontend_flags good_platform
              sample_drm gles_world) as [Hlast _].
  apply (Hlast [Call_swap_interval 0; Call_swap_buffers]
               [Call_swap_buffers; Call_destroy] 3).
  reflexivity.
Defined.

(** X3: The selected API is the one of the last bind-API call, whether that bind
    was accepted or refused, and with EGL compiled in the recorded version is
    that call's; no other entry point changes either. *)
Theorem selected_api_last_bind_wins (cfg : build_config) (fl : display_flags)
    (P : platform) (drm : gfx_ctx_drm_data_t) (w : world) :
  (forall (before later : list driver_call) (api : gfx_ctx_api) (major minor : Z),
     forallb (fun c => negb (is_bind_api c)) later = true ->
     exists (drm' : gfx_ctx_drm_data_t) (w' : world),
       run_calls cfg fl P (before ++ Call_bind_api api major minor :: later) (Some drm) w
         = Ok (Some drm') w' /\
       drm_api w' = api /\
       (HAVE_EGL cfg = true -> g_egl_major w' = major /\ g_egl_minor w' = minor)) /\
  (forall cs : list driver_call,
     forallb (fun c => negb (is_bind_api c)) cs = true ->
     exists (drm' : gfx_ctx_drm_data_t) (w' : world),
       run_calls cfg fl P cs (Some drm) w = Ok (Some drm') w' /\
       drm_api w' = drm_api w /\
       g_egl_major w' = g_egl_major w /\ g_egl_minor w' = g_egl_minor w).
Proof.
  split.
  - intros before later api major minor Hlater.
    destruct (run_calls_footprint cfg fl P
                (before ++ Call_bind_api api major minor :: later) drm w)
      as (drm' & w' & evs & E & _ & _ & _ & _ & _ & _ & Ha & Hv & _).
    exists drm', w'. split; [exact E|]. split.
    + rewrite Ha. unfold last_api. rewrite fold_left_app. cbn.
      now apply last_api_unchanged.
    + intros Hegl. unfold last_version in Hv. rewrite fold_left_app in Hv.
      cbn in Hv. rewrite Hegl in Hv.
      change (fold_left (fun v c => version_after cfg c v) later (major, minor))
        with (last_version cfg later (major, minor)) in Hv.
      rewrite last_version_unchanged in Hv by assumption.
      now injection Hv as -> ->.
  - intros cs Hcs.
    destruct (run_calls_footprint cfg fl P cs drm w)
      as (drm' & w' & evs & E & _ & _ & _ & _ & _ & _ & Ha & Hv & _).
    exists drm', w'. split; [exact E|].
    rewrite last_version_unchanged in Hv by assumption.
    rewrite Ha, last_api_unchanged by assumption.
    injection Hv as -> ->. repeat split.
Qed.

Lemma selected_api_last_bind_wins_witness :
  exists (drm' : gfx_ctx_drm_data_t) (w' : world),
    run_calls cfg_gles frontend_flags good_platform
      ([Call_bind_api GFX_CTX_OPENGL_ES_API 2 0] ++
       Call_bind_api GFX_CTX_OPENGL_ES_API 3 0 :: [Call_swap_buffers])
      (Some sample_drm) initial_world = Ok (Some drm') w' /\
    drm_api w' = GFX_CTX_OPENGL_ES_API /\ g_egl_major w' = 3.
Proof.
  destruct (selected_api_last_bind_wins cfg_gles frontend_flags good_platform
              sample_drm initial_world) as [Hlast _].
  destruct (Hlast [Call_bind_api GFX_CTX_OPENGL_ES_API 2 0] [Call_swap_buffers]
                  GFX_CTX_OPENGL_ES_API 3 0 eq_refl)
    as (drm' & w' & E & Ha & Hv).
  exists drm', w'. split; [exact E|]. split; [exact Ha|].
  exact (proj1 (Hv eq_refl)).
Defined.

(** X4: After any sequence of calls, get-video-size reports 480x320 if the
    sequence held a mode-set, whatever size that mode-set asked for, and
    otherwise the size the session started with: only a mode-set writes the
    frame size, and always the same one. *)
Theorem frame_size_fixed_by_mode_set (cfg : build_config) (fl : display_flags)
    (P : platform) (cs : list driver_call) (drm : gfx_ctx_drm_data_t) (w : world) :
  exists (drm' : gfx_ctx_drm_data_t) (w' : world),
    run_calls cfg fl P cs (Some drm) w = Ok (Some drm') w' /\
    forall out_w out_h : Z,
      gfx_ctx_drm_get_video_size (Some drm') out_w out_h
        = (if existsb is_set_video_mode cs then (480, 320)
           else (fb_width drm, fb_height drm)).
Proof.
  destruct (run_calls_footprint cfg fl P cs drm w)
    as (drm' & w' & evs & E & _ & _ & _ & Hf & _).
  exists drm', w'. split; [exact E|]. intros out_w out_h. exact Hf.
Qed.

(** X5: A session fresh from init reports a frame of 0x0, not 480x320, until its
    first mode-set: init leaves the size zeroed and nothing but a mode-set
    writes it. *)
Theorem fresh_session_has_no_size (cfg : build_config) (fl : display_flags)
    (P : platform) (cs : list driver_call) (w : world) :
  calloc_ok P (trace w) = true ->
  forallb (fun c => negb (is_set_video_mode c)) cs = true ->
  exists (drm0 drm' : gfx_ctx_drm_data_t) (w0 w' : world),
    gfx_ctx_drm_init P w = Ok (Some drm0) w0 /\
    run_calls cfg fl P cs (Some drm0) w0 = Ok (Some drm') w' /\
    forall out_w out_h : Z,
      gfx_ctx_drm_get_video_size (Some drm') out_w out_h = (0, 0).
Proof.
  intros Hok Hcs. unfold gfx_ctx_drm_init. cbn. rewrite Hok. cbn.
  match goal with
  | |- exists d0 _ w0 _, Ok (Some ?d) ?x = Ok (Some d0) w0 /\ _ =>
      destruct (run_calls_footprint cfg fl P cs d x)
        as (drm' & w' & evs & E & _ & _ & _ & Hf & _);
      exists d, drm', x, w'
  end.
  split; [reflexivity|]. split; [exact E|].
  intros out_w out_h. cbn. cbn in Hf. rewrite Hf.
  assert (Hnone : existsb is_set_video_mode cs = false).
  { clear -Hcs. induction cs as [|c cs IH]; [reflexivity|].
    cbn in *. apply andb_prop in Hcs. destruct Hcs as [Hc Hcs].
    rewrite (IH Hcs). now destruct (is_set_video_mode c). }
  now rewrite Hnone.
Qed.

Lemma fresh_session_has_no_size_witness :
  exists (drm0 drm' : gfx_ctx_drm_data_t) (w0 w' : world),
    gfx_ctx_drm_init good_platform initial_world = Ok (Some drm0) w0 /\
    run_calls cfg_gles frontend_flags good_platform
      [Call_bind_api GFX_CTX_OPENGL_ES_API 2 0; Call_swap_interval 1]
      (Some drm0) w0 = Ok (Some drm') w' /\
    forall out_w out_h : Z,
      gfx_ctx_drm_get_video_size (Some drm') out_w out_h = (0, 0).
Proof.
  apply (fresh_session_has_no_size cfg_gles frontend_flags good_platform
           [Call_bind_api GFX_CTX_OPENGL_ES_API 2 0; Call_swap_interval 1]
           initial_world); reflexivity.
Defined.

(** X6: The core-context request is sticky: after any sequence of calls it is
    set exactly when it was set before or some set-flags call of the
    sequence carried GL_CORE_CONTEXT; no entry point, destroy included,
    clears it. *)
Theorem core_request_is_sticky (cfg : build_config) (fl : display_flags)
    (P : platform) (cs : list driver_call) (drm : gfx_ctx_drm_data_t) (w : world) :
  exists (drm' : gfx_ctx_drm_data_t) (w' : world),
    run_calls cfg fl P cs (Some drm) w = Ok (Some drm') w' /\
    core_hw_context_enable drm'
      = core_hw_context_enable drm || existsb (requests_core fl) cs.
Proof.
  destruct (run_calls_footprint cfg fl P cs drm w)
    as (drm' & w' & evs & E & _ & _ & Hc & _).
  now exists drm', w'.
Qed.

(** X7: Over any sequence of calls the driver keeps to the surface protocol: a
    surface is locked only while none is held, only the held surface is
    posted and unlocked, and when the sequence returns no surface is held.
    So a history that held no surface before holds none after. *)
Theorem surface_locks_are_paired (cfg : build_config) (fl : display_flags)
    (P : platform) (cs : list driver_call) (drm : gfx_ctx_drm_data_t) (w : world) :
  exists (drm' : gfx_ctx_drm_data_t) (w' : world) (evs : list event),
    run_calls cfg fl P cs (Some drm) w = Ok (Some drm') w' /\
    trace w' = trace w ++ evs /\
    lock_protocol Unlocked evs = Unlocked /\
    (lock_protocol Unlocked (trace w) = Unlocked ->
     lock_protocol Unlocked (trace w') = Unlocked).
Proof.
  destruct (run_calls_footprint cfg fl P cs drm w)
    as (drm' & w' & evs & E & Ht & _ & _ & _ & _ & _ & _ & _ & Hl & _).
  exists drm', w', evs. repeat apply conj; try assumption.
  intros Hw. now rewrite Ht, lock_protocol_app, Hw.
Qed.

Lemma surface_locks_are_paired_witness :
  exists (drm' : gfx_ctx_drm_data_t) (w' : world),
    run_calls cfg_gles frontend_flags good_platform
      [Call_swap_buffers; Call_swap_interval 2; Call_swap_buffers]
      (Some sample_drm) gles_world = Ok (Some drm') w' /\
    lock_protocol Unlocked (trace w') = Unlocked.
Proof.
  destruct (surface_locks_are_paired cfg_gles frontend_flags good_platform
              [Call_swap_buffers; Call_swap_interval 2; Call_swap_buffers]
              sample_drm gles_world) as (drm' & w' & evs & E & _ & _ & Hw).
  exists drm', w'. split; [exact E|]. apply Hw. reflexivity.
Defined.

(** X8: Resources are given back by destroy alone: a sequence of calls without a
    destroy keeps the display and the presenter of the session and releases
    nothing.  And of the entry points that take the session, which are all
    of this file's but init, none creates a display or a presenter: the
    two that init created are the only ones a session ever has. *)
Theorem resources_released_only_by_destroy (cfg : build_config) (fl : display_flags)
    (P : platform) (cs : list driver_call) (drm : gfx_ctx_drm_data_t) (w : world) :
  exists (drm' : gfx_ctx_drm_data_t) (w' : world) (evs : list event),
    run_calls cfg fl P cs (Some drm) w = Ok (Some drm') w' /\
    trace w' = trace w ++ evs /\
    forallb (fun e => negb (is_display_create e)) evs = true /\
    (forallb (fun c => negb (is_destroy c)) cs = true ->
       display drm' = display drm /\ presenter drm' = presenter drm /\
       forallb (fun e => negb (is_release e)) evs = true).
Proof.
  destruct (run_calls_footprint cfg fl P cs drm w)
    as (drm' & w' & evs & E & Ht & _ & _ & _ & Hd & Hp & _ & _ & _ & Hr & Hn).
  exists drm', w', evs. repeat apply conj; try assumption.
  intros Hcs.
  assert (Hnone : existsb is_destroy cs = false).
  { clear -Hcs. induction cs as [|c cs IH]; [reflexivity|].
    cbn in *. apply andb_prop in Hcs. destruct Hcs as [Hc Hcs].
    rewrite (IH Hcs). now destruct (is_destroy c). }
  rewrite Hnone in Hd, Hp. repeat split; auto.
Qed.

Lemma resources_released_only_by_destroy_witness :
  exists (drm' : gfx_ctx_drm_data_t) (w' : world),
    run_calls cfg_gles frontend_flags good_platform
      [Call_set_video_mode 800 600 false; Call_swap_buffers; Call_get_flags]
      (Some sample_drm) gles_world = Ok (Some drm') w' /\
    display drm' = display sample_drm /\ presenter drm' = presenter sample_drm.
Proof.
  destruct (resources_released_only_by_destroy cfg_gles frontend_flags good_platform
              [Call_set_video_mode 800 600 false; Call_swap_buffers; Call_get_flags]
              sample_drm gles_world) as (drm' & w' & evs & E & _ & _ & Hkeep).
  destruct (Hkeep eq_refl) as (Hd & Hp & _).
  exists drm', w'. repeat split; assumption.
Defined.

(** ** The NULL handle *)

(** X9: Which entry points survive a NULL handle.  destroy, get-api, bind-api,
    set-video-mode, get-video-size, check-window, has-focus,
    suppress-screensaver, input-driver and get-proc-address always return on
    NULL and leave it NULL; swap-interval and get-flags always go through
    the NULL pointer; set-flags does so exactly when the flag set holds
    GL_CORE_CONTEXT; swap-buffers exactly when one of the three GPU APIs is
    selected in a build with EGL (with any other API it only prints). *)
Theorem null_handle_outcome (cfg : build_config) (fl : display_flags) (P : platform)
    (c : driver_call) (w : world) :
  is_bind_hw_render c = false ->
  (writes_through_null cfg fl (drm_api w) c = true ->
     do_call cfg fl P None c w = Segv) /\
  (writes_through_null cfg fl (drm_api w) c = false ->
     exists w' : world, do_call cfg fl P None c w = Ok None w').
Proof.
  intros Hc. destruct w as [a mj mn tr].
  destruct c; try discriminate Hc;
    cbn -[Z.ltb Z.leb uadd umul BIT32_GET has_flag].
  all: run_entry_points.
  all: try destruct api.
  all: try destruct a.
  all: split_branches'.
  all: unfold call, emit; cbn -[Z.ltb Z.leb uadd umul BIT32_GET has_flag].
  all: split_branches'.
  all: split; intros H; try discriminate H; try reflexivity;
         try (eexists; reflexivity).
Qed.

Lemma null_handle_outcome_witness :
  do_call cfg_gles frontend_flags good_platform None (Call_swap_interval 1) gles_world
    = Segv /\
  do_call cfg_gles frontend_flags good_platform None Call_swap_buffers gles_world
    = Segv /\
  exists w' : world,
    do_call cfg_gles frontend_flags good_platform None Call_swap_buffers initial_world
      = Ok None w'.
Proof.
  split; [|split].
  - apply (null_handle_outcome cfg_gles frontend_flags good_platform
             (Call_swap_interval 1) gles_world); reflexivity.
  - apply (null_handle_outcome cfg_gles frontend_flags good_platform
             Call_swap_buffers gles_world); reflexivity.
  - apply (null_handle_outcome cfg_gles frontend_flags good_platform
             Call_swap_buffers initial_world); reflexivity.
Defined.

(** ** After destroy *)

(** X10: A second destroy on the same session does not release the context again,
    but it does hand NULL to go2_presenter_destroy and to
    go2_display_destroy; it leaves the session as the first destroy left
    it. *)
Theorem second_destroy_passes_null (drm : gfx_ctx_drm_data_t) (w : world) :
  exists (drm1 : gfx_ctx_drm_data_t) (w1 : world),
    gfx_ctx_drm_destroy (Some drm) w = Ok (Some drm1) w1 /\
    gfx_ctx_drm_destroy (Some drm1) w1
      = Ok (Some drm1)
           (after w1 [E_go2_presenter_destroy None; E_go2_display_destroy None]).
Proof.
  destruct drm as [eg d p c i fw fh core]. cbn.
  destruct c as [c|]; cbn; unfold emit, after; cbn;
    do 2 eexists; (split; [reflexivity|]); cbn; norm_trace; reflexivity.
Qed.

(** X11: A mode-set on a destroyed session still returns true: finding no
    context, it asks go2_context_create for one on the NULL display and
    stores whatever that answers, while display and presenter stay NULL. *)
Theorem mode_set_after_destroy (P : platform) (drm : gfx_ctx_drm_data_t) (w : world)
    (width height : Z) (fullscreen : bool) :
  exists (drm1 drm2 : gfx_ctx_drm_data_t) (w1 : world),
    gfx_ctx_drm_destroy (Some drm) w = Ok (Some drm1) w1 /\
    let created :=
      go2_context_create P (trace w1 ++ [E_frontend_driver_install_signal_handler])
        None 480 320 mode_attr in
    gfx_ctx_drm_set_video_mode P (Some drm1) width height fullscreen w1
      = Ok (true, Some drm2)
           (after w1 [E_frontend_driver_install_signal_handler;
                      E_go2_context_create None 480 320 mode_attr created;
                      E_go2_context_make_current created;
                      E_glClear GL_COLOR_BUFFER_BIT]) /\
    context drm2 = created /\
    display drm2 = None /\ presenter drm2 = None.
Proof.
  destruct drm as [eg d p c i fw fh core]. cbn.
  destruct c as [c|]; cbn; unfold emit, after, mode_attr; cbn;
    do 3 eexists; (split; [reflexivity|]); cbn;
    (split; [norm_trace; reflexivity
            | repeat apply conj; cbn; norm_trace; reflexivity]).
Qed.

(** ** What a mode-set depends on *)

(** X12: A mode-set looks at nothing but the display and the context of the
    session and the history of library calls: the size and fullscreen flag
    asked for, the selected API and its version, the core-context request
    and the swap interval change neither its library calls, nor its result,
    nor the context it leaves. *)
Theorem mode_set_ignores_request (P : platform)
    (drm1 drm2 : gfx_ctx_drm_data_t) (w1 w2 : world)
    (width1 height1 width2 height2 : Z) (fullscreen1 fullscreen2 : bool) :
  display drm1 = display drm2 ->
  context drm1 = context drm2 ->
  trace w1 = trace w2 ->
  exists (drm1' drm2' : gfx_ctx_drm_data_t) (evs : list event),
    gfx_ctx_drm_set_video_mode P (Some drm1) width1 height1 fullscreen1 w1
      = Ok (true, Some drm1') (after w1 evs) /\
    gfx_ctx_drm_set_video_mode P (Some drm2) width2 height2 fullscreen2 w2
      = Ok (true, Some drm2') (after w2 evs) /\
    context drm1' = context drm2' /\
    core_hw_context_enable drm1' = core_hw_context_enable drm1 /\
    interval drm1' = interval drm1.
Proof.
  destruct drm1 as [eg1 d1 p1 c1 i1 fw1 fh1 core1].
  destruct drm2 as [eg2 d2 p2 c2 i2 fw2 fh2 core2].
  destruct w1 as [a1 mj1 mn1 tr1]. destruct w2 as [a2 mj2 mn2 tr2].
  cbn. intros <- <- <-.
  destruct c1 as [c|]; cbn; unfold emit, after; cbn;
    do 3 eexists;
    (split; [norm_trace; reflexivity|]);
    (split; [norm_trace; reflexivity|]); repeat split.
Qed.

Lemma mode_set_ignores_request_witness :
  exists (drm1' drm2' : gfx_ctx_drm_data_t) (evs : list event),
    gfx_ctx_drm_set_video_mode good_platform (Some sample_drm) 800 600 false gles_world
      = Ok (true, Some drm1') (after gles_world evs) /\
    gfx_ctx_drm_set_video_mode good_platform
      (Some (set_core_hw_context_enable true sample_drm)) 1920 1080 true
      (mk_world GFX_CTX_OPENGL_API 4 6 [])
      = Ok (true, Some drm2') (after (mk_world GFX_CTX_OPENGL_API 4 6 []) evs) /\
    context drm1' = context drm2'.
Proof.
  destruct (mode_set_ignores_request good_platform
              sample_drm (set_core_hw_context_enable true sample_drm)
              gles_world (mk_world GFX_CTX_OPENGL_API 4 6 [])
              800 600 1920 1080 false true eq_refl eq_refl eq_refl)
    as (d1 & d2 & evs & E1 & E2 & Hc & _).
  now exists d1, d2, evs.
Defined.

(** ** The flag set, bit by bit *)

(** The flag word of [gfx_ctx_drm_get_flags], read bit by bit. *)
Lemma get_flags_bits (cfg : build_config) (fl : display_flags) (P : platform)
    (drm : gfx_ctx_drm_data_t) (w : world) :
  display_flags_wf fl ->
  exists flags : Z,
    gfx_ctx_drm_get_flags cfg fl P (Some drm) w
      = Ok flags (after w [E_video_driver_get_ident (video_driver_get_ident P (trace w))]) /\
    0 <= flags /\
    forall n : Z, 0 <= n ->
      Z.testbit flags n =
        (GFX_CTX_FLAGS_CUSTOMIZABLE_SWAPCHAIN_IMAGES fl =? n)
        || (core_hw_context_enable drm && (GFX_CTX_FLAGS_GL_CORE_CONTEXT fl =? n))
        || (string_is_equal (video_driver_get_ident P (trace w)) (Some "glcore"%string)
            && (HAVE_SLANG cfg && HAVE_SPIRV_CROSS cfg)
            && (GFX_CTX_FLAGS_SHADERS_SLANG fl =? n))
        || (negb (string_is_equal (video_driver_get_ident P (trace w))
                    (Some "glcore"%string))
            && (GFX_CTX_FLAGS_SHADERS_GLSL fl =? n)).
Proof.
  intros (Hcore & Hswap & Hglsl & Hslang & _).
  unfold gfx_ctx_drm_get_flags. cbn.
  eexists. split; [reflexivity|].
  assert (Hnn : forall a bit, 0 <= a -> 0 <= BIT32_SET a bit).
  { intros a bit Ha. unfold BIT32_SET. apply Z.lor_nonneg. split; [assumption|].
    apply Z.shiftl_nonneg. lia. }
  split.
  - destruct (core_hw_context_enable drm), (string_is_equal _ _),
      (HAVE_SLANG cfg && HAVE_SPIRV_CROSS cfg); repeat apply Hnn; lia.
  - intros n Hn.
    destruct (core_hw_context_enable drm), (string_is_equal _ _),
      (HAVE_SLANG cfg && HAVE_SPIRV_CROSS cfg); cbn [andb negb];
      rewrite ?BIT32_SET_testbit by assumption;
      rewrite ?flag_bit_small by assumption;
      rewrite Z.bits_0, ?orb_false_r; reflexivity.
Qed.

(** X13: The flag set returned by get-flags never holds anything but the four
    flags the driver knows (so never multisampling, hard sync and the
    like), and it fits the 32-bit return type. *)
Theorem get_flags_only_known_flags (cfg : build_config) (fl : display_flags)
    (P : platform) (drm : gfx_ctx_drm_data_t) (w : world) :
  display_flags_wf fl ->
  exists (flags : Z) (w' : world),
    gfx_ctx_drm_get_flags cfg fl P (Some drm) w = Ok flags w' /\
    0 <= flags < 2 ^ 32 /\
    forall n : Z, Z.testbit flags n = true ->
      n = GFX_CTX_FLAGS_CUSTOMIZABLE_SWAPCHAIN_IMAGES fl \/
      n = GFX_CTX_FLAGS_GL_CORE_CONTEXT fl \/
      n = GFX_CTX_FLAGS_SHADERS_GLSL fl \/
      n = GFX_CTX_FLAGS_SHADERS_SLANG fl.
Proof.
  intros Hwf. destruct (get_flags_bits cfg fl P drm w Hwf) as (flags & E & Hnn & Hbits).
  destruct Hwf as (Hcore & Hswap & Hglsl & Hslang & _).
  assert (Hknown : forall n : Z, Z.testbit flags n = true ->
      n = GFX_CTX_FLAGS_CUSTOMIZABLE_SWAPCHAIN_IMAGES fl \/
      n = GFX_CTX_FLAGS_GL_CORE_CONTEXT fl \/
      n = GFX_CTX_FLAGS_SHADERS_GLSL fl \/
      n = GFX_CTX_FLAGS_SHADERS_SLANG fl).
  { intros n Hn. destruct (Z.neg_nonneg_cases n) as [Hneg | Hpos].
    - rewrite Z.testbit_neg_r in Hn by assumption. discriminate Hn.
    - rewrite (Hbits n Hpos) in Hn.
      repeat (apply orb_prop in Hn; destruct Hn as [Hn | Hn]).
      + apply Z.eqb_eq in Hn. now left.
      + apply andb_prop in Hn. destruct Hn as [_ Hn]. apply Z.eqb_eq in Hn.
        right; now left.
      + apply andb_prop in Hn. destruct Hn as [_ Hn]. apply Z.eqb_eq in Hn.
        right; right; now right.
      + apply andb_prop in Hn. destruct Hn as [_ Hn]. apply Z.eqb_eq in Hn.
        right; right; now left. }
  eexists flags, _. split; [exact E|]. split; [|exact Hknown].
  split; [exact Hnn|].
  destruct (Z.lt_ge_cases flags (2 ^ 32)) as [Hlt | Hge]; [exact Hlt|].
  exfalso.
  assert (Hpos : 0 < flags) by lia.
  assert (Hlog : 32 <= Z.log2 flags) by (apply Z.log2_le_pow2; assumption).
  pose proof (Hknown _ (Z.bit_log2 flags Hpos)) as H.
  lia.
Qed.

Lemma get_flags_only_known_flags_witness :
  exists (flags : Z) (w' : world),
    gfx_ctx_drm_get_flags cfg_gl frontend_flags good_platform (Some sample_drm)
      initial_world = Ok flags w' /\
    0 <= flags < 2 ^ 32.
Proof.
  assert (Hwf : display_flags_wf frontend_flags).
  { unfold display_flags_wf, frontend_flags. cbn. repeat split; lia. }
  destruct (get_flags_only_known_flags cfg_gl frontend_flags good_platform
              sample_drm initial_world Hwf) as (flags & w' & E & Hb & _).
  now exists flags, w'.
Defined.

(** X14: Handing the result of get-flags back to set-flags changes nothing in the
    session: the only flag set-flags listens to is in the result exactly
    when the request is already recorded. *)
Theorem set_flags_of_get_flags (cfg : build_config) (fl : display_flags)
    (P : platform) (drm : gfx_ctx_drm_data_t) (w : world) :
  display_flags_wf fl ->
  exists (flags : Z) (w' : world),
    gfx_ctx_drm_get_flags cfg fl P (Some drm) w = Ok flags w' /\
    gfx_ctx_drm_set_flags fl (Some drm) flags w' = Ok (Some drm) w'.
Proof.
  intros Hwf. destruct (get_flags_bits cfg fl P drm w Hwf) as (flags & E & _ & Hbits).
  destruct Hwf as (Hcore & Hswap & Hglsl & Hslang & Hcs & Hcg & Hcl & _).
  eexists flags, _. split; [exact E|].
  unfold gfx_ctx_drm_set_flags.
  change (truthy (BIT32_GET flags (GFX_CTX_FLAGS_GL_CORE_CONTEXT fl)))
    with (has_flag flags (GFX_CTX_FLAGS_GL_CORE_CONTEXT fl)).
  rewrite has_flag_testbit, flag_bit_small by assumption.
  rewrite Hbits by lia. rewrite Z.eqb_refl.
  replace (GFX_CTX_FLAGS_CUSTOMIZABLE_SWAPCHAIN_IMAGES fl
             =? GFX_CTX_FLAGS_GL_CORE_CONTEXT fl) with false
    by (symmetry; apply Z.eqb_neq; congruence).
  replace (GFX_CTX_FLAGS_SHADERS_SLANG fl =? GFX_CTX_FLAGS_GL_CORE_CONTEXT fl) with false
    by (symmetry; apply Z.eqb_neq; congruence).
  replace (GFX_CTX_FLAGS_SHADERS_GLSL fl =? GFX_CTX_FLAGS_GL_CORE_CONTEXT fl) with false
    by (symmetry; apply Z.eqb_neq; congruence).
  rewrite !andb_false_r, !orb_false_r, andb_true_r. cbn [orb].
  destruct drm as [eg d p c i fw fh core]. cbn. now destruct core.
Qed.

Lemma set_flags_of_get_flags_witness :
  exists (flags : Z) (w' : world),
    gfx_ctx_drm_get_flags cfg_gl frontend_flags good_platform (Some sample_drm)
      initial_world = Ok flags w' /\
    gfx_ctx_drm_set_flags frontend_flags (Some sample_drm) flags w'
      = Ok (Some sample_drm) w'.
Proof.
  apply (set_flags_of_get_flags cfg_gl frontend_flags good_platform
           sample_drm initial_world).
  unfold display_flags_wf, frontend_flags. cbn. repeat split; lia.
Defined.

(** ** Binding, once more *)

(** X15: A bind-API either answers false without calling the library at all, or
    makes exactly one library call, [egl_bind_api] with the [EGLenum] of the
    very API asked for, in a build with EGL, and returns that call's answer
    unchanged.  So it can only return true for one of the three GPU APIs
    and only when EGL itself agreed. *)
Theorem bind_api_calls_egl_at_most_once (cfg : build_config) (P : platform)
    (api : gfx_ctx_api) (major minor : Z) (w : world) :
  exists (b : bool) (w' : world),
    gfx_ctx_drm_bind_api cfg P api major minor w = Ok b w' /\
    ((b = false /\ trace w' = trace w) \/
     (exists e : EGLenum_api,
        egl_api_of api = Some e /\ HAVE_EGL cfg = true /\
        b = egl_bind_api P (trace w) e /\
        trace w' = trace w ++ [E_egl_bind_api e b])).
Proof.
  destruct w as [a mj mn tr]. unfold gfx_ctx_drm_bind_api.
  remember (uadd (umul major 1000) minor) as code eqn:Hcode. clear Hcode.
  cbn. destruct api, (HAVE_EGL cfg); cbn;
    repeat match goal with
           | |- context [if ?c then _ else _] => destruct c; cbn
           end;
    do 2 eexists; (split; [reflexivity|]); cbn;
    first [ left; split; reflexivity
          | right; eexists; repeat split; reflexivity ].
Qed.

(** ** The input driver *)

(** X16: [gfx_ctx_drm_input_driver] hands back a driver and its data together or
    neither.  It opens no input device unless X11 is compiled in and the
    configured input driver is "x".  It chooses udev whenever udev is
    compiled in and opens, and falls back to the Linux raw console only
    after udev, if compiled in, has failed to open; the data handed back is
    what the chosen driver's init answered. *)
Theorem input_driver_choice (cfg : build_config) (P : platform)
    (data : option gfx_ctx_drm_data_t) (joypad_name : string) (w : world) :
  exists (r : option input_driver_t * void_p) (evs : list event),
    gfx_ctx_drm_input_driver cfg P data joypad_name w = Ok r (after w evs) /\
    (fst r = None <-> snd r = None) /\
    (HAVE_X11 cfg = false -> r = (None, None) /\ evs = []) /\
    (settings_input_driver P (trace w) <> "x"%string ->
       r = (None, None) /\ forallb (fun e => negb (is_input_init e)) evs = true) /\
    (fst r = Some input_udev ->
       HAVE_UDEV cfg = true /\
       In (E_input_init input_udev joypad_name (snd r)) evs) /\
    (fst r = Some input_linuxraw ->
       linux_not_android cfg = true /\
       In (E_input_init input_linuxraw joypad_name (snd r)) evs /\
       (HAVE_UDEV cfg = true -> In (E_input_init input_udev joypad_name None) evs)).
Proof.
  destruct w as [a mj mn tr]. unfold gfx_ctx_drm_input_driver.
  destruct (HAVE_X11 cfg) eqn:Hx11; cbn.
  2:{ exists (None, None), []. unfold after. cbn. rewrite app_nil_r.
      repeat apply conj; try reflexivity; try (intros H; discriminate H);
        intros _; split; reflexivity. }
  destruct (String.eqb_spec (settings_input_driver P tr) "x") as [Hname | Hname]; cbn.
  2:{ eexists (None, None), _. unfold after. cbn.
      repeat apply conj; try reflexivity; try (intros H; discriminate H);
        intros _; split; reflexivity. }
  destruct (HAVE_UDEV cfg) eqn:Hudev, (linux_not_android cfg) eqn:Hlinux; cbn;
    repeat match goal with
           | |- context [match ?x with Some _ => _ | None => _ end] =>
               destruct x eqn:?; cbn
           end;
    eexists (_, _), _; unfold after; cbn;
    (split; [norm_trace; reflexivity|]);
    repeat apply conj; try reflexivity; cbn;
    try (intros H; try discriminate H; try contradiction;
         repeat apply conj; try reflexivity; try discriminate;
         try (intros _); cbn; auto 6).
Qed.

Lemma input_driver_choice_witness :
  exists evs : list event,
    gfx_ctx_drm_input_driver cfg_x11 x_input_platform None "pad" initial_world
      = Ok (Some input_linuxraw, Some 3%N) (after initial_world evs) /\
    In (E_input_init input_udev "pad" None) evs.
Proof.
  destruct (input_driver_choice cfg_x11 x_input_platform None "pad" initial_world)
    as (r & evs & E & _ & _ & _ & _ & Hraw).
  assert (Hr : r = (Some input_linuxraw, Some 3%N)).
  { cbv in E. now injection E as <- _. }
  subst r. exists evs. split; [exact E|].
  destruct (Hraw eq_refl) as (_ & _ & Hudev). apply Hudev. reflexivity.
Defined.

(** ** Init *)

(** X17: [gfx_ctx_drm_init] fails exactly when the allocation fails, and then has
    called nothing else.  Otherwise it returns a session whatever
    go2_display_create and go2_presenter_create answered, NULL included: the
    presenter was asked for on the very display just created, with RGB565
    and the colour 0xff080808, and the session starts without context, with
    interval 0, size 0x0 and no core-context request.  The selected API is
    not touched. *)
Theorem init_outcome (P : platform) (w : world) :
  exists (data : option gfx_ctx_drm_data_t) (w' : world),
    gfx_ctx_drm_init P w = Ok data w' /\
    drm_api w' = drm_api w /\
    (data = None <-> calloc_ok P (trace w) = false) /\
    (data = None -> w' = after w [E_calloc false]) /\
    (forall drm : gfx_ctx_drm_data_t, data = Some drm ->
       w' = after w [E_calloc true;
                     E_go2_display_create (display drm);
                     E_go2_presenter_create (display drm) DRM_FORMAT_RGB565 0xff080808
                       (presenter drm)] /\
       display drm = go2_display_create P (trace w ++ [E_calloc true]) /\
       context drm = None /\ interval drm = 0 /\
       fb_width drm = 0 /\ fb_height drm = 0 /\
       core_hw_context_enable drm = false).
Proof.
  destruct w as [a mj mn tr]. unfold gfx_ctx_drm_init. cbn.
  destruct (calloc_ok P tr) eqn:Hok; cbn; do 2 eexists;
    (split; [reflexivity|]); cbn; (split; [reflexivity|]).
  - split; [split; discriminate|]. split; [discriminate|].
    intros drm [= <-]. cbn. unfold after. cbn. norm_trace. repeat split.
  - split; [split; reflexivity|]. split; [reflexivity|]. discriminate.
Qed.

Lemma init_outcome_witness :
  exists (drm : gfx_ctx_drm_data_t) (w' : world),
    gfx_ctx_drm_init good_platform initial_world = Ok (Some drm) w' /\
    context drm = None /\ fb_width drm = 0.
Proof.
  destruct (init_outcome good_platform initial_world)
    as (data & w' & E & _ & _ & _ & Hsome).
  assert (Hdata : data = Some (mk_drm 0%N (Some 2%N) (Some 3%N) None 0 0 0 false)).
  { cbv in E. now injection E as <- _. }
  destruct (Hsome _ Hdata) as (_ & _ & Hc & _ & Hw & _).
  subst data. eexists _, w'. split; [exact E|]. split; assumption.
Defined.

(** ** Entry points that only look *)



(** X19: [gfx_ctx_drm_check_window] never reports a resize and reports quit
    exactly when the frontend's signal-handler state is not zero; it does so
    for any handle, NULL included, whatever [is_shutdown] says, with that
    one query as its only effect. *)
Theorem check_window_reports (P : platform) (data : option gfx_ctx_drm_data_t)
    (is_shutdown : bool) (w : world) :
  exists quit : bool,
    gfx_ctx_drm_check_window P data is_shutdown w
      = Ok (quit, false)
           (after w [E_frontend_driver_get_signal_handler_state
                       (frontend_driver_get_signal_handler_state P (trace w))]) /\
    (quit = true <-> frontend_driver_get_signal_handler_state P (trace w) <> 0).
Proof.
  unfold gfx_ctx_drm_check_window. cbn. eexists. split; [reflexivity|].
  unfold truthy. destruct (Z.eqb_spec (frontend_driver_get_signal_handler_state P (trace w)) 0)
    as [-> | Hne]; cbn; split; try discriminate; try reflexivity; congruence.
Qed.

(** X20: [gfx_ctx_drm_get_proc_address] resolves nothing by itself: it answers
    NULL without any library call unless one of the three GPU APIs is
    selected in a build with EGL, and then it hands the symbol to
    [egl_get_proc_address] once and returns its answer unchanged.  Before
    the first bind-API of a process it therefore always answers NULL. *)
Theorem get_proc_address_outcome (cfg : build_config) (P : platform)
    (symbol : string) (w : world) :
  (is_gpu_api (drm_api w) && HAVE_EGL cfg = false ->
     gfx_ctx_drm_get_proc_address cfg P symbol w = Ok None w) /\
  (is_gpu_api (drm_api w) && HAVE_EGL cfg = true ->
     gfx_ctx_drm_get_proc_address cfg P symbol w
       = Ok (egl_get_proc_address P (trace w) symbol)
            (after w [E_egl_get_proc_address symbol
                        (egl_get_proc_address P (trace w) symbol)])) /\
  (forall (data : option gfx_ctx_drm_data_t) (w0 : world),
     gfx_ctx_drm_init P initial_world = Ok data w0 ->
     gfx_ctx_drm_get_proc_address cfg P symbol w0 = Ok None w0).
Proof.
  unfold gfx_ctx_drm_get_proc_address. split; [|split].
  - destruct w as [a mj mn tr]. cbn.
    destruct a, (HAVE_EGL cfg); intros H; try discriminate H; reflexivity.
  - destruct w as [a mj mn tr]. cbn.
    destruct a, (HAVE_EGL cfg); intros H; try discriminate H; reflexivity.
  - intros data w0 E.
    destruct (calloc_ok P (trace initial_world)) eqn:Hok;
      unfold gfx_ctx_drm_init in E; cbn in E; cbn in Hok; rewrite Hok in E; cbn in E;
      injection E as _ <-; reflexivity.
Qed.

Lemma get_proc_address_outcome_witness :
  gfx_ctx_drm_get_proc_address cfg_gles good_platform "glClear" gles_world
    = Ok (Some 1%N) (after gles_world [E_egl_get_proc_address "glClear" (Some 1%N)]) /\
  gfx_ctx_drm_get_proc_address cfg_gles good_platform "glClear" initial_world
    = Ok None initial_world.
Proof.
  destruct (get_proc_address_outcome cfg_gles good_platform "glClear" gles_world)
    as (_ & Hgpu & _).
  destruct (get_proc_address_outcome cfg_gles good_platform "glClear" initial_world)
    as (Hnone & _ & _).
  split; [apply Hgpu | apply Hnone]; reflexivity.
Defined.

(** ** The swap interval is only stored *)

Lemma do_call_interval_unread (cfg : build_config) (fl : display_flags) (P : platform)
    (c : driver_call) (drm : gfx_ctx_drm_data_t) (n : Z) (w : world) :
  exists (drm' : gfx_ctx_drm_data_t) (w' : world),
    do_call cfg fl P (Some drm) c w = Ok (Some drm') w' /\
    do_call cfg fl P (Some (set_interval n drm)) c w
      = Ok (Some (set_interval (interval_after c n) drm')) w'.
Proof.
  destruct w as [a mj mn tr]. destruct drm as [eg d p cx i fw fh core].
  destruct c; cbn -[Z.ltb Z.leb uadd umul BIT32_GET has_flag].
  all: run_entry_points.
  all: try destruct api.
  all: try destruct a.
  all: split_branches'.
  all: unfold call, emit; cbn -[Z.ltb Z.leb uadd umul BIT32_GET has_flag].
  all: split_branches'.
  all: do 2 eexists; split; reflexivity.
Qed.

(** X21: No entry point reads the stored swap interval: two sessions that differ
    only in it go through any sequence of calls with the same library calls
    and the same process-wide variables, and end up differing only in it
    again.  In particular presenting a frame is the same for every
    interval. *)
Theorem interval_is_never_read (cfg : build_config) (fl : display_flags)
    (P : platform) (cs : list driver_call) (drm : gfx_ctx_drm_data_t) (n : Z)
    (w : world) :
  exists (drm' : gfx_ctx_drm_data_t) (w' : world),
    run_calls cfg fl P cs (Some drm) w = Ok (Some drm') w' /\
    run_calls cfg fl P cs (Some (set_interval n drm)) w
      = Ok (Some (set_interval (last_interval cs n) drm')) w'.
Proof.
  revert drm n w. induction cs as [|c cs IH]; intros drm n w.
  - exists drm, w. split; reflexivity.
  - destruct (do_call_interval_unread cfg fl P c drm n w) as (d1 & w1 & E1 & E1').
    destruct (IH d1 (interval_after c n) w1) as (d2 & w2 & E2 & E2').
    exists d2, w2. split.
    + cbn. rewrite E1. exact E2.
    + cbn [run_calls]. cbn [bind Monad_M]. rewrite E1'. exact E2'.
Qed.
